(** * Quiz solver: a shallow embedding of [quiz_solver.py]

    The chain-orchestration engine of the repository ([QuizSolver]) is
    embedded function by function.  Python values are the [json] type below;
    calls that leave the process (headless browser, OpenAI client, aiohttp,
    the clock) are oracles of a [World] that see the calls made so far; the
    functions of Python's own libraries that the code calls ([json.loads],
    [base64.b64encode], [bytes.decode], [str()] of a non-string) are the
    fields of a [PyLib].  Exceptions are values of [exn]; only subclasses of
    [Exception] are modelled (no [KeyboardInterrupt], no task cancellation). *)

From Stdlib Require Import ZArith List String Ascii Bool Lia.
From Stdlib Require Import PrimFloat FloatOps FloatAxioms SpecFloat.
Import ListNotations.

Set Warnings "-register-all".

Local Open Scope string_scope.
Local Open Scope list_scope.

(** ** Python values *)

(** A Python [str] is a Rocq [string]: one [ascii] per code point, so the
    model covers the code points below 256 (Latin-1). *)
Definition bytes := list Byte.byte.

(** The values [json.loads] produces, which are also the values the solver
    passes around ([None], [bool], [int], [float], [str], [list], [dict]). *)
Inductive json : Type :=
| JNull
| JBool (b : bool)
| JInt (n : Z)
| JFloat (f : float)
| JStr (s : string)
| JList (l : list json)
| JDict (d : list (string * json)).

Inductive exn : Type :=
| KeyError (key : string)
| AttributeError
| TypeError
| ValueError
| OverflowError
| UnicodeDecodeError
| DownloadFailed (status : Z)      (* Exception(f"Failed to download file: {status}") *)
| ExternalError (msg : string).    (* raised inside a service or library call *)

Inductive outcome (A : Type) : Type :=
| Return (a : A)
| Raise (e : exn).
Arguments Return {A} a.
Arguments Raise {A} e.

Definition obind {A B} (m : outcome A) (f : A -> outcome B) : outcome B :=
  match m with
  | Return a => f a
  | Raise e => Raise e
  end.

Declare Scope outcome_scope.
Delimit Scope outcome_scope with outcome.
Notation "x <~ m ;; k" := (obind m (fun x => k))
  (at level 61, m at next level, right associativity) : outcome_scope.

(** Truth value testing ([if v:], [while v and ...]). *)
Definition truthy (v : json) : bool :=
  match v with
  | JNull => false
  | JBool b => b
  | JInt n => negb (n =? 0)%Z
  | JFloat f => negb (f =? 0)%float
  | JStr s => negb (s =? "")
  | JList l => match l with [] => false | _ :: _ => true end
  | JDict d => match d with [] => false | _ :: _ => true end
  end.

Fixpoint assoc (k : string) (d : list (string * json)) : option json :=
  match d with
  | [] => None
  | (k', v) :: d' => if k' =? k then Some v else assoc k d'
  end.

(** [v.get(k, default)]: only a dict has the method. *)
Definition dict_get (v : json) (k : string) (default : json) : outcome json :=
  match v with
  | JDict d => Return (match assoc k d with Some x => x | None => default end)
  | _ => Raise AttributeError
  end.

(** [v[k]] with a string key. *)
Definition getitem (v : json) (k : string) : outcome json :=
  match v with
  | JDict d => match assoc k d with
               | Some x => Return x
               | None => Raise (KeyError k)
               end
  | _ => Raise TypeError
  end.

(** [for x in v]: the elements of a list, the characters of a string, the
    keys of a dict; anything else is not iterable. *)
Fixpoint chars (s : string) : list json :=
  match s with
  | EmptyString => []
  | String c s' => JStr (String c EmptyString) :: chars s'
  end.

Definition py_iter (v : json) : outcome (list json) :=
  match v with
  | JList l => Return l
  | JStr s => Return (chars s)
  | JDict d => Return (map (fun kv => JStr (fst kv)) d)
  | _ => Raise TypeError
  end.

(** ** Strings *)

Definition between (lo hi n : nat) : bool := (lo <=? n)%nat && (n <=? hi)%nat.

(** [str.lower] on one code point below 256: A-Z, and the Latin-1 capitals
    U+00C0..U+00DE without the multiplication sign U+00D7. *)
Definition lower_ascii (c : ascii) : ascii :=
  let n := nat_of_ascii c in
  if between 65 90 n || (between 192 222 n && negb (n =? 215)%nat)
  then ascii_of_nat (n + 32)
  else c.

Fixpoint lower (s : string) : string :=
  match s with
  | EmptyString => EmptyString
  | String c s' => String (lower_ascii c) (lower s')
  end.

(** [needle in hay]. *)
Fixpoint str_in (needle hay : string) : bool :=
  prefix needle hay ||
  match hay with
  | EmptyString => false
  | String _ hay' => str_in needle hay'
  end.

(** [str.isspace] below 256. *)
Definition is_space (c : ascii) : bool :=
  let n := nat_of_ascii c in
  between 9 13 n || between 28 32 n || (n =? 133)%nat || (n =? 160)%nat.

Fixpoint lstrip (s : string) : string :=
  match s with
  | EmptyString => EmptyString
  | String c s' => if is_space c then lstrip s' else s
  end.

Fixpoint rstrip (s : string) : string :=
  match s with
  | EmptyString => EmptyString
  | String c s' =>
      let r := rstrip s' in
      if is_space c && (r =? "") then EmptyString else String c r
  end.

Definition strip (s : string) : string := rstrip (lstrip s).

(** ** Regular expressions: the fragment [re.findall] is used with

    A pattern is a sequence of character classes, each with a greedy
    quantifier; [re_match] is the backtracking matcher at one position
    (matched text and rest), [re_findall] the leftmost non-overlapping
    scan. *)
Inductive quant : Type := One | Opt | Star | Plus.

Definition regex := list (quant * (ascii -> bool)).

Definition consume (c : ascii) (r : option (string * string)) :=
  match r with
  | Some (m, rest) => Some (String c m, rest)
  | None => None
  end.

Definition matcher : Type := string -> option (string * string).

(** One character of the class, then the rest of the pattern. *)
Definition match_one (p : ascii -> bool) (cont : matcher) : matcher :=
  fun s =>
    match s with
    | String c s' => if p c then consume c (cont s') else None
    | EmptyString => None
    end.

(** [p?]: with the character first, without it if that fails. *)
Definition match_opt (p : ascii -> bool) (cont : matcher) : matcher :=
  fun s =>
    match match_one p cont s with
    | Some res => Some res
    | None => cont s
    end.

(** [p*]: as many characters as possible, giving back one at a time while
    the rest of the pattern fails. *)
Fixpoint match_star (p : ascii -> bool) (cont : matcher) (s : string)
  : option (string * string) :=
  match s with
  | String c s' =>
      if p c then
        match consume c (match_star p cont s') with
        | Some res => Some res
        | None => cont s
        end
      else cont s
  | EmptyString => cont s
  end.

Fixpoint re_match (r : regex) : matcher :=
  match r with
  | [] => fun s => Some (EmptyString, s)
  | (q, p) :: r' =>
      match q with
      | One => match_one p (re_match r')
      | Opt => match_opt p (re_match r')
      | Star => match_star p (re_match r')
      | Plus => match_one p (match_star p (re_match r'))
      end
  end.

(** [skip] characters of the previous match are still to be passed over. *)
Fixpoint findall_from (r : regex) (skip : nat) (s : string) : list string :=
  match s with
  | EmptyString =>
      match skip, re_match r EmptyString with
      | O, Some (m, _) => [m]
      | _, _ => []
      end
  | String _ s' =>
      match skip with
      | S n => findall_from r n s'
      | O =>
          match re_match r s with
          | Some (m, _) => m :: findall_from r (Nat.pred (String.length m)) s'
          | None => findall_from r 0 s'
          end
      end
  end.

Definition re_findall (r : regex) (s : string) : list string := findall_from r 0 s.

(** [\d] on code points below 256 is 0-9. *)
Definition is_digit (c : ascii) : bool := between 48 57 (nat_of_ascii c).
Definition is_char (a c : ascii) : bool := (a =? c)%char.

(** [r'-?\d+\.?\d*'] *)
Definition number_pattern : regex :=
  [(Opt, is_char "-"); (Plus, is_digit); (Opt, is_char "."); (Star, is_digit)].

(** ** Floats *)

(** [float(s)] on the decimal literals the number pattern can match: an
    optional minus sign, digits, at most one point, at least one digit.
    The value [n / 10^k] is rounded to the nearest binary64 (ties to even),
    as CPython's correctly rounded conversion does; what is too large
    becomes an infinity.  [format_answer] applies [float] to tokens of the
    number pattern only; the other spellings Python accepts (exponents,
    "inf", "nan", blanks, underscores) are outside the model, which
    answers [ValueError] for them. *)
Definition digit_val (c : ascii) : Z := Z.of_nat (nat_of_ascii c - 48).

Fixpoint scan_decimal (s : string) (seen_dot : bool) (ndigits : nat) (n : Z) (k : Z)
  : option (Z * Z) :=
  match s with
  | EmptyString => match ndigits with O => None | S _ => Some (n, k) end
  | String c s' =>
      if is_digit c then
        scan_decimal s' seen_dot (S ndigits) (10 * n + digit_val c)%Z
                     (if seen_dot then k + 1 else k)%Z
      else if is_char "." c && negb seen_dot then
        scan_decimal s' true ndigits n k
      else None
  end.

Definition float_of_decimal (neg : bool) (n k : Z) : float :=
  let '(q, e, loc) := SFdiv_core_binary prec emax n 0 (10 ^ k)%Z 0 in
  SF2Prim (binary_round_aux prec emax neg q e loc).

Definition py_float (s : string) : outcome float :=
  let '(neg, body) :=
    match s with
    | String c body => if is_char "-" c then (true, body) else (false, s)
    | EmptyString => (false, s)
    end in
  match scan_decimal body false 0 0 0 with
  | Some (n, k) => Return (float_of_decimal neg n k)
  | None => Raise ValueError
  end.

(** [int(f)]: truncation toward zero; infinities and NaN have no integer. *)
Definition py_int (f : float) : outcome Z :=
  match Prim2SF f with
  | S754_zero _ => Return 0%Z
  | S754_finite s m e => Return (cond_Zopp s (Z.shiftl (Zpos m) e))
  | S754_infinity _ => Raise OverflowError
  | S754_nan => Raise ValueError
  end.

(** The number pattern after its optional sign. *)
Definition unsigned_pattern : regex :=
  [(Plus, is_digit); (Opt, is_char "."); (Star, is_digit)].

(** ** Decimal tokens, for stating what the number pattern finds *)

Fixpoint string_forallb (p : ascii -> bool) (s : string) : bool :=
  match s with
  | EmptyString => true
  | String c s' => p c && string_forallb p s'
  end.

Definition starts_with (p : ascii -> bool) (s : string) : bool :=
  match s with
  | EmptyString => false
  | String c _ => p c
  end.

Fixpoint ends_with (p : ascii -> bool) (s : string) : bool :=
  match s with
  | EmptyString => false
  | String c EmptyString => p c
  | String _ s' => ends_with p s'
  end.

Definition not_digit (c : ascii) : bool := negb (is_digit c).

(** The number a string of decimal digits writes, after the digits [acc]. *)
Fixpoint digits_value_from (acc : Z) (s : string) : Z :=
  match s with
  | EmptyString => acc
  | String c s' => digits_value_from (10 * acc + digit_val c) s'
  end.

Definition digits_value (s : string) : Z := digits_value_from 0 s.

(** The value of a token with its fractional part dropped, as the spec
    words the conversion: the sign and the digits before the point. *)
Definition truncated_value (neg : bool) (ds : string) : Z :=
  cond_Zopp neg (digits_value ds).

Definition sign_text (neg : bool) : string := if neg then "-" else "".

(** The fractional part of a token: nothing, or a point and digits. *)
Definition fraction_text (point : bool) (fs : string) : string :=
  if point then String "." fs else "".

(** ** Library functions the solver calls *)
Record PyLib : Type := {
  json_loads : string -> outcome json;        (* json.loads *)
  b64encode : bytes -> string;                (* base64.b64encode(b).decode('utf-8') *)
  utf8_decode : bytes -> outcome string;      (* b.decode('utf-8') *)
  py_repr : json -> string                    (* str(v) for a v that is not a str *)
}.

Section Formatter.
Variable lib : PyLib.

(** [format_answer]: the body of the [try] yields [Some v] when it
    returns [v], [None] when control falls out of it; the bare [except]
    swallows whatever it raises. *)
Definition format_attempt (answer_text fmt : string) : outcome (option json) :=
  (if str_in "number" fmt || str_in "int" fmt then
     match re_findall number_pattern answer_text with
     | tok :: _ =>
         f <~ py_float tok ;;
         n <~ py_int f ;;
         Return (Some (JInt n))
     | [] => Return None
     end
   else if str_in "boolean" fmt || str_in "bool" fmt then
     let answer_lower := lower answer_text in
     if str_in "true" answer_lower || str_in "yes" answer_lower then
       Return (Some (JBool true))
     else if str_in "false" answer_lower || str_in "no" answer_lower then
       Return (Some (JBool false))
     else Return None
   else if str_in "json" fmt || str_in "object" fmt then
     v <~ json_loads lib answer_text ;;
     Return (Some v)
   else Return None)%outcome.

Definition format_answer (answer_text : string) (answer_format : json) : outcome json :=
  if negb (truthy answer_format) then Return (JStr answer_text)
  else
    match answer_format with
    | JStr fmt0 =>
        match format_attempt answer_text (lower fmt0) with
        | Return (Some v) => Return v
        | Return None | Raise _ => Return (JStr answer_text)
        end
    | _ => Raise AttributeError          (* answer_format.lower() *)
    end.
End Formatter.

(** ** The outside world *)

Record page : Type := { html : string; text : string }.

Record http_response : Type := {
  status : Z;
  read : outcome bytes;                     (* await response.read() *)
  content_type_header : option string       (* response.headers.get('Content-Type') *)
}.

Record file_payload : Type := { content : bytes; content_type : string }.

Inductive content_part : Type :=
| text_part (body : string)                 (* {"type": "text", "text": body} *)
| image_url_part (url : string).            (* {"type": "image_url", "image_url": {"url": url}} *)

Inductive message_content : Type :=
| content_text (s : string)
| content_parts (l : list content_part).

Record message : Type := { role : string; msg_content : message_content }.

Record chat_request : Type := {
  model : string;
  messages : list message;
  response_format : option string;
  max_tokens : option Z
}.

(** One event per call that leaves the process, most recent first. *)
Inductive event : Type :=
| ev_time                                   (* time.time() *)
| ev_render (url : json)                    (* page.goto(url, ...) in a fresh browser *)
| ev_chat (req : chat_request)              (* chat.completions.create(...) *)
| ev_get (url : json)                       (* session.get(url, timeout=30) *)
| ev_post (url : json) (payload : json).    (* session.post(url, json=payload, timeout=30) *)

Definition trace := list event.

(** Each service answers from the calls made before this one. *)
Record World : Type := {
  time_time : trace -> float;
  browse : trace -> json -> outcome page;
  chat_create : trace -> chat_request -> outcome (option string);
      (* response.choices[0].message.content, which may be None *)
  session_get : trace -> json -> outcome http_response;
  session_post : trace -> json -> json -> outcome json
      (* the decoded body, await response.json() *)
}.

(** ** State and exceptions *)

Definition M (S A : Type) : Type := S -> S * outcome A.

Definition ret {S A} (a : A) : M S A := fun s => (s, Return a).
Definition raise {S A} (e : exn) : M S A := fun s => (s, Raise e).
Definition lift {S A} (o : outcome A) : M S A := fun s => (s, o).

Definition bind {S A B} (m : M S A) (f : A -> M S B) : M S B :=
  fun s =>
    match m s with
    | (s', Return a) => f a s'
    | (s', Raise e) => (s', Raise e)
    end.

Definition try_except {S A} (body : M S A) (handler : exn -> M S A) : M S A :=
  fun s =>
    match body s with
    | (s', Return a) => (s', Return a)
    | (s', Raise e) => handler e s'
    end.

(** [try: ... except Exception as e: logger.error(...); raise] *)
Definition logged {S A} (body : M S A) : M S A := try_except body (fun e => raise e).

Definition call {A} (ev : event) (oracle : trace -> outcome A) : M trace A :=
  fun t => (ev :: t, oracle t).

Notation "x <- m ;; k" := (bind m (fun x => k))
  (at level 61, m at next level, right associativity).

(** A computation only adds calls to the trace. *)
Definition extends {A} (m : M trace A) : Prop :=
  forall t, exists newer, fst (m t) = newer ++ t.

Inductive control : Type :=
| Continue (next_url : json)       (* current_url = next_url *)
| Break.

Record QuizSolver : Type := { max_time : float }.

(** [__init__]: [self.max_time = 180]; the OpenAI client built from the key
    is the [chat_create] oracle of the world. *)
Definition QuizSolver_init (openai_api_key : string) : QuizSolver :=
  {| max_time := 180 |}.

Definition newline : string := "
".

Section Solver.
Variable lib : PyLib.
Variable w : World.
Variable self : QuizSolver.

Definition now : M trace float :=
  call ev_time (fun t => Return (time_time w t)).

Definition render_page (url : json) : M trace page :=
  logged (call (ev_render url) (fun t => browse w t url)).

Definition parse_prompt (page_text : string) : string :=
  "
You are a quiz parser. Extract the following information from this quiz page:

1. The question being asked
2. Any URLs to download files (PDFs, CSVs, etc.)
3. The submit endpoint URL where answers should be posted
4. The expected format of the answer (boolean, number, string, object, base64, etc.)

Quiz page content:
" ++ page_text ++ "

Return your response as a JSON object with keys: question, file_urls, submit_url, answer_format
".

Definition parse_request (page_content : page) : chat_request :=
  {| model := "gpt-4o-mini";
     messages :=
       [ {| role := "system";
            msg_content := content_text "You are a helpful assistant that parses quiz questions and extracts structured information." |};
         {| role := "user";
            msg_content := content_text (parse_prompt (text page_content)) |} ];
     response_format := Some "json_object";
     max_tokens := None |}.

Definition parse_quiz_with_llm (page_content : page) : M trace json :=
  logged
    (let req := parse_request page_content in
     reply <- call (ev_chat req) (fun t => chat_create w t req) ;;
     match reply with
     | Some s => lift (json_loads lib s)
     | None => raise TypeError               (* json.loads(None) *)
     end).

Definition download_file (url : json) : M trace file_payload :=
  logged
    (response <- call (ev_get url) (fun t => session_get w t url) ;;
     if (status response =? 200)%Z then
       body <- lift (read response) ;;
       ret {| content := body;
              content_type := match content_type_header response with
                              | Some ct => ct
                              | None => ""
                              end |}
     else raise (DownloadFailed (status response))).

(** [str(v)] inside an f-string. *)
Definition py_str (v : json) : string :=
  match v with
  | JStr s => s
  | _ => py_repr lib v
  end.

(** One pass of the loop over [file_data]: [user_content] afterwards. *)
Definition attach_file (file_info : file_payload) (user_content : list content_part)
  : outcome (list content_part) :=
  let ct := lower (content_type file_info) in
  if str_in "pdf" ct || str_in "image" ct then
    let base64_content := b64encode lib (content file_info) in
    if str_in "pdf" ct then
      Return (user_content ++ [text_part "[PDF file content - analyze the data within]"])
    else
      Return (user_content ++
              [image_url_part ("data:" ++ content_type file_info ++ ";base64," ++ base64_content)])
  else if str_in "text" ct || str_in "csv" ct then
    (text_content <~ utf8_decode lib (content file_info) ;;
     Return (user_content ++ [text_part ("File content:" ++ newline ++ text_content)]))%outcome
  else Return user_content.

Fixpoint attach_files (file_data : list file_payload) (user_content : list content_part)
  : outcome (list content_part) :=
  match file_data with
  | [] => Return user_content
  | file_info :: rest =>
      (user_content' <~ attach_file file_info user_content ;;
       attach_files rest user_content')%outcome
  end.

(** The request [solve_with_llm] sends. *)
Definition answer_request (quiz_info : json) (file_data : list file_payload)
  : outcome chat_request :=
  (question <~ getitem quiz_info "question" ;;
   fmt <~ dict_get quiz_info "answer_format" (JStr "appropriate format") ;;
   let user_content :=
     [text_part ("Question: " ++ py_str question ++ newline ++ newline ++
                 "Provide only the answer in the format: " ++ py_str fmt)] in
   user_content <~ match file_data with
                   | [] => Return user_content              (* if file_data: *)
                   | _ :: _ => attach_files file_data user_content
                   end ;;
   Return {| model := "gpt-4o";
             messages :=
               [ {| role := "system";
                    msg_content := content_text "You are a data analysis expert. Answer questions about data accurately and concisely." |};
                 {| role := "user"; msg_content := content_parts user_content |} ];
             response_format := None;
             max_tokens := Some 2000%Z |})%outcome.

Definition solve_with_llm (quiz_info : json) (file_data : list file_payload) : M trace json :=
  logged
    (req <- lift (answer_request quiz_info file_data) ;;
     reply <- call (ev_chat req) (fun t => chat_create w t req) ;;
     match reply with
     | Some s =>
         let answer_text := strip s in
         answer_format <- lift (dict_get quiz_info "answer_format" JNull) ;;
         lift (format_answer lib answer_text answer_format)
     | None => raise AttributeError          (* None.strip() *)
     end).

Definition submit_payload (email secret quiz_url answer : json) : json :=
  JDict [("email", email); ("secret", secret); ("url", quiz_url); ("answer", answer)].

Definition submit_answer (submit_url email secret quiz_url answer : json) : M trace json :=
  logged
    (let payload := submit_payload email secret quiz_url answer in
     call (ev_post submit_url payload) (fun t => session_post w t submit_url payload)).

Fixpoint download_files (urls : list json) : M trace (list file_payload) :=
  match urls with
  | [] => ret []
  | file_url :: rest =>
      file_content <- download_file file_url ;;
      more <- download_files rest ;;
      ret (file_content :: more)
  end.

(** Step 3 of [solve_single_quiz]: [file_data] after the downloads. *)
Definition fetch_files (quiz_info : json) : M trace (list file_payload) :=
  file_urls <- lift (dict_get quiz_info "file_urls" JNull) ;;
  if truthy file_urls then
    urls <- lift (obind (getitem quiz_info "file_urls") py_iter) ;;
    download_files urls
  else ret [].

Definition solve_single_quiz (email secret url : json) : M trace json :=
  logged
    (page_content <- render_page url ;;
     quiz_info <- parse_quiz_with_llm page_content ;;
     file_data <- fetch_files quiz_info ;;
     answer <- solve_with_llm quiz_info file_data ;;
     submit_url <- lift (dict_get quiz_info "submit_url" JNull) ;;
     result <- submit_answer submit_url email secret url answer ;;
     ret result).

(** The loop of [solve_quiz_chain]: its state is the trace and the
    [results] list. *)
Definition LS : Type := trace * list json.

Definition on_trace {A} (m : M trace A) : M LS A :=
  fun s => let '(t', r) := m (fst s) in ((t', snd s), r).

Definition append_result (result : json) : M LS unit :=
  fun s => ((fst s, snd s ++ [result]), Return tt).

(** What follows [results.append(result)] inside the [try]. *)
Definition decide (result : json) : outcome control :=
  (correct <~ dict_get result "correct" JNull ;;
   if truthy correct then
     next_url <~ dict_get result "url" JNull ;;
     if truthy next_url then Return (Continue next_url) else Return Break
   else
     reason <~ dict_get result "reason" (JStr "Unknown error") ;;
     next_url <~ dict_get result "url" JNull ;;
     if truthy next_url then Return (Continue next_url) else Return Break)%outcome.

(** The [try] statement that is the body of the [while]. *)
Definition chain_iteration (email secret current_url : json) : M LS control :=
  try_except
    (result <- on_trace (solve_single_quiz email secret current_url) ;;
     _ <- append_result result ;;
     lift (decide result))
    (fun _ => ret Break).

(** [time.time() - start_time] when the clock is read after the calls [t]. *)
Definition elapsed (start_time : float) (t : trace) : float :=
  (time_time w t - start_time)%float.

(** [current_url and (time.time() - start_time) < self.max_time]: the
    clock is read only for a truthy [current_url]. *)
Definition loop_guard (start_time : float) (current_url : json) : M LS bool :=
  if truthy current_url then
    t_now <- on_trace now ;;
    ret (t_now - start_time <? max_time self)%float
  else ret false.

(** [fuel] bounds the number of iterations; the answer is [false] when it
    ran out before the loop ended. *)
Fixpoint chain_loop (fuel : nat) (email secret : json) (start_time : float)
         (current_url : json) : M LS bool :=
  go <- loop_guard start_time current_url ;;
  if go then
    match fuel with
    | O => ret false
    | S fuel' =>
        ctl <- chain_iteration email secret current_url ;;
        match ctl with
        | Continue next_url => chain_loop fuel' email secret start_time next_url
        | Break => ret true
        end
    end
  else ret true.

Definition solve_quiz_chain (fuel : nat) (email secret initial_url : json)
  : M trace (option (list json)) :=
  start_time <- now ;;
  fun t =>
    match chain_loop fuel email secret start_time initial_url (t, []) with
    | (s, Return true) => (fst s, Return (Some (snd s)))
    | (s, Return false) => (fst s, Return None)
    | (s, Raise e) => (fst s, Raise e)
    end.

(** [advances email secret start u t rs u' t']: from the loop head with
    [current_url = u] after the calls [t], the loop runs through
    [length rs] whole iterations, whose submission results are [rs] in
    order, each one leading on; it is then back at the loop head with
    [current_url = u'] after the calls [t']. *)
Inductive advances (email secret : json) (start_time : float)
  : json -> trace -> list json -> json -> trace -> Prop :=
| advances_none (u : json) (t : trace) :
    advances email secret start_time u t [] u t
| advances_step (u : json) (t : trace) (r : json) (t1 : trace) (u1 : json)
                (rs : list json) (u2 : json) (t2 : trace) :
    truthy u = true ->
    (elapsed start_time t <? max_time self)%float = true ->
    solve_single_quiz email secret u (ev_time :: t) = (t1, Return r) ->
    decide r = Return (Continue u1) ->
    advances email secret start_time u1 t1 rs u2 t2 ->
    advances email secret start_time u t (r :: rs) u2 t2.
End Solver.

(** The spec's notion of a successful download, for comparison with the
    status test of [download_file]: a 2xx status. *)
Definition success_status (code : Z) : bool := (200 <=? code)%Z && (code <=? 299)%Z.

(** The URLs [session.post] was called with, oldest first. *)
Definition posted_to (t : trace) : list json :=
  rev (flat_map (fun e => match e with ev_post u _ => [u] | _ => [] end) t).

(** ** A concrete world: a chain of three quizzes

    Used to run the embedding.  The library functions are tables that agree
    with Python on the texts that occur. *)
Module Demo.
Definition dq : string := String "034" EmptyString.      (* the double quote *)
Definition quoted (s : string) : string := dq ++ s ++ dq.

(** The quiz description the parsing model replies with, as JSON text,
    with or without its [submit_url]. *)
Definition quiz_text (with_submit : bool) : string :=
  "{" ++ quoted "question" ++ ": " ++ quoted "What is 6 times 7?" ++ ", "
      ++ quoted "file_urls" ++ ": [" ++ quoted "http://files/data.csv" ++ "], "
      ++ (if with_submit
          then quoted "submit_url" ++ ": " ++ quoted "http://quiz/submit" ++ ", "
          else "")
      ++ quoted "answer_format" ++ ": " ++ quoted "number" ++ "}".

Definition quiz_value (with_submit : bool) : json :=
  JDict ([("question", JStr "What is 6 times 7?");
          ("file_urls", JList [JStr "http://files/data.csv"])]
         ++ (if with_submit then [("submit_url", JStr "http://quiz/submit")] else [])
         ++ [("answer_format", JStr "number")]).

Definition lib : PyLib := {|
  json_loads := fun s =>
    if s =? quiz_text true then Return (quiz_value true)
    else if s =? quiz_text false then Return (quiz_value false)
    else if s =? "[1, 2]" then Return (JList [JInt 1; JInt 2])
    else Raise ValueError;
  b64encode := fun _ => "";                 (* not exercised: no image or PDF here *)
  utf8_decode := fun b =>
    if forallb (fun x => (Byte.to_N x <? 128)%N) b
    then Return (string_of_list_byte b)
    else Raise UnicodeDecodeError;
  py_repr := fun _ => "None"                (* not exercised: the fields are strings *)
|}.

Definition csv_bytes : bytes := [Byte.x61; Byte.x2c; Byte.x62; Byte.x0a; Byte.x31; Byte.x2c; Byte.x32].

(** The grading endpoint: quiz 1 is right and leads to quiz 2, quiz 2 is
    wrong and leads to quiz 3, quiz 3 is right and ends the chain; quiz 4
    is wrong with no follow-up, quiz 5 is right with an empty follow-up. *)
Definition grade (quiz_url : json) : json :=
  match quiz_url with
  | JStr u =>
      if u =? "http://quiz/1" then JDict [("correct", JBool true); ("url", JStr "http://quiz/2")]
      else if u =? "http://quiz/2" then
        JDict [("correct", JBool false); ("reason", JStr "Wrong sum"); ("url", JStr "http://quiz/3")]
      else if u =? "http://quiz/3" then JDict [("correct", JBool true)]
      else if u =? "http://quiz/5" then JDict [("correct", JBool true); ("url", JStr "")]
      else JDict [("correct", JBool false); ("reason", JStr "Wrong sum")]
  | _ => JDict [("correct", JBool false); ("reason", JStr "Bad request")]
  end.

(** [reply]: what the parsing model answers; [clock]: the wall clock;
    [down]: the URL whose page fails to load; [code]: the status of every
    download. *)
Definition world (reply : string) (clock : trace -> float) (down : string) (code : Z)
  : World := {|
  time_time := clock;
  browse := fun _ url =>
    match url with
    | JStr u =>
        if u =? down then Raise (ExternalError "Timeout 30000ms exceeded")
        else Return {| html := "<html><body>" ++ u ++ "</body></html>"; text := u |}
    | _ => Raise TypeError
    end;
  chat_create := fun _ req =>
    match response_format req with
    | Some _ => Return (Some reply)
    | None => Return (Some " The answer is 42.
")
    end;
  session_get := fun _ _ =>
    Return {| status := code; read := Return csv_bytes;
              content_type_header := Some "text/csv; charset=utf-8" |};
  session_post := fun _ url payload =>
    match url with
    | JStr _ => obind (dict_get payload "url" JNull) (fun u => Return (grade u))
    | _ => Raise TypeError                   (* no URL to post to *)
    end
|}.

Definition still (_ : trace) : float := 1000%float.

(** A clock that has run past the budget once the chain has started. *)
Definition late (t : trace) : float :=
  match t with
  | [] => 1000%float
  | _ :: _ => 1200%float
  end.

Definition chain_world : World := world (quiz_text true) still "" 200.

Definition page1 : page :=
  {| html := "<html><body>http://quiz/1</body></html>"; text := "http://quiz/1" |}.

Definition csv_file : file_payload :=
  {| content := csv_bytes; content_type := "text/csv; charset=utf-8" |}.

Definition binary_file : file_payload :=
  {| content := [Byte.x00; Byte.xff]; content_type := "application/octet-stream" |}.

Definition solver : QuizSolver := QuizSolver_init "sk-test".
Definition email : json := JStr "student@example.com".
Definition secret : json := JStr "s3cret".
Definition quiz (n : string) : json := JStr ("http://quiz/" ++ n).
End Demo.

(** ** Reading a trace *)

Definition is_render (e : event) : bool :=
  match e with ev_render _ => true | _ => false end.

Definition is_post (e : event) : bool :=
  match e with ev_post _ _ => true | _ => false end.

Definition is_get (e : event) : bool :=
  match e with ev_get _ => true | _ => false end.

(** A call that is neither a page rendering nor a submission. *)
Definition inner_call (e : event) : bool := negb (is_render e) && negb (is_post e).

Definition is_chat (e : event) : bool :=
  match e with ev_chat _ => true | _ => false end.

(** A request to a model or a download. *)
Definition model_or_download (e : event) : bool := is_chat e || is_get e.

(** The URLs rendered, and the URLs downloaded, oldest first. *)
Definition rendered (t : trace) : list json :=
  rev (flat_map (fun e => match e with ev_render u => [u] | _ => [] end) t).

Definition fetched (t : trace) : list json :=
  rev (flat_map (fun e => match e with ev_get u => [u] | _ => [] end) t).

(** A computation only adds calls of the kind [P]. *)
Definition emits {A} (P : event -> bool) (m : M trace A) : Prop :=
  forall t, exists newer, fst (m t) = newer ++ t /\ forallb P newer = true.

(** [result.get('url')] of a submission result that has the method. *)
Definition url_of (result : json) : json :=
  match dict_get result "url" JNull with
  | Return x => x
  | Raise _ => JNull
  end.

(** The content types [solve_with_llm] has a branch for. *)
Definition recognised (file_info : file_payload) : bool :=
  let ct := lower (content_type file_info) in
  str_in "pdf" ct || str_in "image" ct || str_in "text" ct || str_in "csv" ct.

(** ** The front end ([app.py])

    A reply is what a view returns: [jsonify(body), status].  The request
    is given by what [request.get_json()] does on it; [SECRET] and the API
    key are the values read from the environment at start-up; [exn_str] is
    [str(e)]. *)
Record reply : Type := { reply_body : json; reply_status : Z }.

(** [v != s] for a [str] [s]. *)
Definition ne_str (v : json) (s : string) : bool :=
  match v with
  | JStr x => negb (x =? s)
  | _ => true
  end.

Definition error_reply (msg : string) (code : Z) : reply :=
  {| reply_body := JDict [("error", JStr msg)]; reply_status := code |}.

Definition success_reply (url : json) : reply :=
  {| reply_body := JDict [("status", JStr "success");
                          ("message", JStr "Quiz processing started");
                          ("initial_url", url)];
     reply_status := 200 |}.

(** [health] *)
Definition health : reply :=
  {| reply_body := JDict [("status", JStr "healthy")]; reply_status := 200 |}.

Section App.
Variable lib : PyLib.
Variable w : World.
Variable SECRET : string.
Variable OPENAI_API_KEY : string.
Variable exn_str : exn -> string.

(** [quiz_solver = QuizSolver(OPENAI_API_KEY)] *)
Definition quiz_solver : QuizSolver := QuizSolver_init OPENAI_API_KEY.

(** [handle_quiz]; the answer is [None] when the chain it runs is out of
    fuel. *)
Definition handle_quiz (fuel : nat) (get_json : outcome json) : M trace (option reply) :=
  try_except
    (data <- lift get_json ;;
     if negb (truthy data) then ret (Some (error_reply "Invalid JSON" 400))
     else
       email <- lift (dict_get data "email" JNull) ;;
       secret <- lift (dict_get data "secret" JNull) ;;
       url <- lift (dict_get data "url" JNull) ;;
       if negb (forallb truthy [email; secret; url]) then
         ret (Some (error_reply "Missing required fields: email, secret, url" 400))
       else if ne_str secret SECRET then
         ret (Some (error_reply "Invalid secret" 403))
       else
         result <- solve_quiz_chain lib w quiz_solver fuel email secret url ;;
         match result with
         | Some _ => ret (Some (success_reply url))
         | None => ret None
         end)
    (fun e => ret (Some (error_reply (exn_str e) 500))).
End App.

(** [data.get(k)] of the decoded body. *)
Definition field (d : list (string * json)) (k : string) : json :=
  match assoc k d with
  | Some v => v
  | None => JNull
  end.

(** What a run of the loop from [current_url = u] leaves behind, in the
    calls [newer] it added and the results [more] it appended. *)
Definition history (u : json) (newer : trace) (more : list json) : Prop :=
  rendered newer = firstn (List.length (rendered newer)) (u :: map url_of more)
  /\ (List.length more <= List.length (posted_to newer))%nat
  /\ (List.length (posted_to newer) <= List.length (rendered newer))%nat
  /\ (List.length (rendered newer) <= S (List.length more))%nat
  /\ Forall (fun r => truthy (url_of r) = true) (removelast more).

(** ** More cases to run *)

Module Cases.
(** The grader answers with a JSON list, not an object. *)
Definition list_world : World := {|
  time_time := Demo.still;
  browse := browse Demo.chain_world;
  chat_create := chat_create Demo.chain_world;
  session_get := session_get Demo.chain_world;
  session_post := fun _ _ _ => Return (JList [JInt 1])
|}.

(** One of the files is missing on the server. *)
Definition flaky_world : World := {|
  time_time := Demo.still;
  browse := browse Demo.chain_world;
  chat_create := chat_create Demo.chain_world;
  session_get := fun _ url =>
    Return {| status := match url with
                        | JStr u => if u =? "http://files/missing.csv" then 404 else 200
                        | _ => 400
                        end;
              read := Return Demo.csv_bytes;
              content_type_header := Some "text/csv" |};
  session_post := session_post Demo.chain_world
|}.

(** The models answer without content. *)
Definition mute_world : World := {|
  time_time := Demo.still;
  browse := browse Demo.chain_world;
  chat_create := fun _ _ => Return None;
  session_get := session_get Demo.chain_world;
  session_post := session_post Demo.chain_world
|}.

(** Only http URLs can be requested, as with aiohttp. *)
Definition strict_world : World := {|
  time_time := Demo.still;
  browse := browse Demo.chain_world;
  chat_create := chat_create Demo.chain_world;
  session_get := fun t url =>
    match url with
    | JStr u => if prefix "http" u then session_get Demo.chain_world t url
                else Raise (ExternalError u)
    | _ => Raise TypeError
    end;
  session_post := session_post Demo.chain_world
|}.

Definition pdf_file (body : bytes) : file_payload :=
  {| content := body; content_type := "application/PDF" |}.

Definition request_body (secret : string) : json :=
  JDict [("email", Demo.email); ("secret", JStr secret); ("url", Demo.quiz "1")].

Definition error_text (e : exn) : string :=
  match e with
  | ExternalError msg => msg
  | _ => "error"
  end.
(** The three-quiz chain, run to its end. *)
Definition demo_run : trace * outcome (option (list json)) :=
  solve_quiz_chain Demo.lib Demo.chain_world Demo.solver 3 Demo.email Demo.secret
                   (Demo.quiz "1") [].
End Cases.

(** * Properties *)

(** ** The monad *)

Lemma logged_eq {S A} (m : M S A) (s : S) : logged m s = m s.
Proof.
  unfold logged, try_except, raise.
  destruct (m s) as [s' [a | e]]; reflexivity.
Qed.

Lemma extends_lift {A} (o : outcome A) : extends (lift o).
Proof. intros t. exists []. reflexivity. Qed.

Lemma extends_call {A} (ev : event) (oracle : trace -> outcome A) : extends (call ev oracle).
Proof. intros t. exists [ev]. reflexivity. Qed.

Lemma extends_bind {A B} (m : M trace A) (f : A -> M trace B) :
  extends m -> (forall a, extends (f a)) -> extends (bind m f).
Proof.
  intros Hm Hf t. unfold bind.
  destruct (Hm t) as [n1 H1]. destruct (m t) as [t1 [a | e]]; simpl in H1; subst t1.
  - destruct (Hf a (n1 ++ t)) as [n2 H2]. exists (n2 ++ n1).
    rewrite H2. apply app_assoc.
  - exists n1. reflexivity.
Qed.

Lemma extends_logged {A} (m : M trace A) : extends m -> extends (logged m).
Proof. intros Hm t. rewrite logged_eq. apply Hm. Qed.

Lemma extends_ret {A} (a : A) : extends (ret a).
Proof. intros t. exists []. reflexivity. Qed.

Lemma extends_raise {A} (e : exn) : extends (@raise trace A e).
Proof. intros t. exists []. reflexivity. Qed.

Ltac trace_grows :=
  repeat first
    [ apply extends_logged
    | apply extends_call
    | apply extends_lift
    | apply extends_ret
    | apply extends_raise
    | apply extends_bind; [| intros ?]
    | match goal with
      | |- extends (match ?x with _ => _ end) => destruct x
      end ].

(** ** Comparison of floats *)

Lemma SFleb_not_SFltb (x y : spec_float) : SFleb x y = true -> SFltb y x = false.
Proof.
  unfold SFleb, SFltb.
  destruct x as [sx | sx | | sx mx ex], y as [sy | sy | | sy my ey]; simpl;
    try destruct sx; try destruct sy; simpl; try congruence.
  - rewrite (Z.compare_antisym ex ey).
    destruct (ex ?= ey)%Z eqn:He; simpl; try congruence.
    change (Pos.compare_cont Eq my mx) with (my ?= mx)%positive.
    change (Pos.compare_cont Eq mx my) with (mx ?= my)%positive.
    rewrite (Pos.compare_antisym mx my).
    destruct (mx ?= my)%positive; simpl; congruence.
  - rewrite (Z.compare_antisym ex ey).
    destruct (ex ?= ey)%Z eqn:He; simpl; try congruence.
    change (Pos.compare_cont Eq my mx) with (my ?= mx)%positive.
    change (Pos.compare_cont Eq mx my) with (mx ?= my)%positive.
    rewrite (Pos.compare_antisym mx my).
    destruct (mx ?= my)%positive; simpl; congruence.
Qed.

Lemma float_le_not_lt (a b : float) : (a <=? b)%float = true -> (b <? a)%float = false.
Proof. rewrite leb_spec, ltb_spec. apply SFleb_not_SFltb. Qed.

(** ** The chain loop *)

Section Chain.
Variable lib : PyLib.
Variable w : World.
Variable self : QuizSolver.

Lemma chain_iteration_eq (email secret u : json) (t : trace) (rs : list json) :
  chain_iteration lib w email secret u (t, rs) =
  match solve_single_quiz lib w email secret u t with
  | (t1, Return r) =>
      ((t1, rs ++ [r]), Return match decide r with
                               | Return ctl => ctl
                               | Raise _ => Break
                               end)
  | (t1, Raise _) => ((t1, rs), Return Break)
  end.
Proof.
  unfold chain_iteration, try_except, bind, on_trace, append_result, lift, ret. simpl.
  destruct (solve_single_quiz lib w email secret u t) as [t1 [r | e]]; simpl.
  - destruct (decide r); reflexivity.
  - reflexivity.
Qed.

Lemma loop_guard_eq (start_time : float) (u : json) (t : trace) (rs : list json) :
  loop_guard w self start_time u (t, rs) =
  if truthy u
  then ((ev_time :: t, rs), Return (elapsed w start_time t <? max_time self)%float)
  else ((t, rs), Return false).
Proof. unfold loop_guard. destruct (truthy u); reflexivity. Qed.

(** One turn of the [while]. *)
Lemma chain_loop_eq (fuel : nat) (email secret : json) (start_time : float)
      (u : json) (t : trace) (rs : list json) :
  chain_loop lib w self fuel email secret start_time u (t, rs) =
  if truthy u && (elapsed w start_time t <? max_time self)%float then
    match fuel with
    | O => ((ev_time :: t, rs), Return false)
    | S fuel' =>
        match solve_single_quiz lib w email secret u (ev_time :: t) with
        | (t1, Return r) =>
            match decide r with
            | Return (Continue next_url) =>
                chain_loop lib w self fuel' email secret start_time next_url (t1, rs ++ [r])
            | _ => ((t1, rs ++ [r]), Return true)
            end
        | (t1, Raise _) => ((t1, rs), Return true)
        end
    end
  else ((if truthy u then ev_time :: t else t, rs), Return true).
Proof.
  destruct fuel as [| fuel']; simpl; unfold bind at 1; rewrite loop_guard_eq;
    destruct (truthy u); simpl; try reflexivity;
    destruct (elapsed w start_time t <? max_time self)%float; simpl; try reflexivity.
  unfold bind. rewrite chain_iteration_eq.
  destruct (solve_single_quiz lib w email secret u (ev_time :: t)) as [t1 [r | e]];
    [destruct (decide r) as [[x |] | e] |]; reflexivity.
Qed.

Lemma chain_loop_returns (fuel : nat) (email secret : json) (start_time : float) :
  forall (u : json) (s : LS),
  exists s' b, chain_loop lib w self fuel email secret start_time u s = (s', Return b).
Proof.
  induction fuel as [| fuel IH]; intros u [t rs]; rewrite chain_loop_eq;
    destruct (truthy u && _); eauto.
  destruct (solve_single_quiz lib w email secret u (ev_time :: t)) as [t1 [r | e]]; eauto.
  destruct (decide r) as [[x |] | e]; eauto.
Qed.

Lemma chain_loop_advances (email secret : json) (start_time : float)
      (u : json) (t : trace) (rs : list json) (u' : json) (t' : trace) :
  advances lib w self email secret start_time u t rs u' t' ->
  forall (fuel : nat) (acc : list json),
    chain_loop lib w self (List.length rs + fuel) email secret start_time u (t, acc) =
    chain_loop lib w self fuel email secret start_time u' (t', acc ++ rs).
Proof.
  induction 1 as [u t | u t r t1 u1 rs u2 t2 Hu Ht Hq Hd _ IH]; intros fuel acc.
  - rewrite app_nil_r. reflexivity.
  - simpl List.length. simpl Nat.add. rewrite chain_loop_eq, Hu, Ht. simpl. rewrite Hq, Hd, IH.
    rewrite <- app_assoc. reflexivity.
Qed.

Lemma solve_quiz_chain_eq (fuel : nat) (email secret u : json) (t : trace) :
  solve_quiz_chain lib w self fuel email secret u t =
  match chain_loop lib w self fuel email secret (time_time w t) u (ev_time :: t, []) with
  | (s, Return true) => (fst s, Return (Some (snd s)))
  | (s, Return false) => (fst s, Return None)
  | (s, Raise e) => (fst s, Raise e)
  end.
Proof. reflexivity. Qed.

(** C2.  [solve_quiz_chain] never raises, and when a step of an iteration
    raises it returns exactly the submission results of the iterations
    before it: the loop having run through [length rs] whole iterations
    with results [rs], a raise inside the next [solve_single_quiz] (render,
    parse, fetch, answer or submit) ends the run with [rs] and nothing
    appended. *)
Theorem chain_stops_at_failing_step (fuel : nat) (email secret initial_url : json)
        (t0 : trace) :
  (exists t' r, solve_quiz_chain lib w self fuel email secret initial_url t0 = (t', Return r))
  /\
  (forall (rs : list json) (u : json) (t t' : trace) (e : exn),
      advances lib w self email secret (time_time w t0) initial_url (ev_time :: t0) rs u t ->
      truthy u = true ->
      (elapsed w (time_time w t0) t <? max_time self)%float = true ->
      solve_single_quiz lib w email secret u (ev_time :: t) = (t', Raise e) ->
      List.length rs < fuel ->
      solve_quiz_chain lib w self fuel email secret initial_url t0 = (t', Return (Some rs))).
Proof.
  split.
  - rewrite solve_quiz_chain_eq.
    destruct (chain_loop_returns fuel email secret (time_time w t0) initial_url (ev_time :: t0, []))
      as [s' [b Hb]].
    rewrite Hb. destruct b; eauto.
  - intros rs u t t' e Hadv Hu Ht Hq Hfuel.
    rewrite solve_quiz_chain_eq.
    replace fuel with (List.length rs + S (fuel - S (List.length rs))) by lia.
    rewrite (chain_loop_advances _ _ _ _ _ _ _ _ Hadv).
    rewrite chain_loop_eq, Hu, Ht. simpl. rewrite Hq. reflexivity.
Qed.

Lemma download_files_extends (urls : list json) : extends (download_files w urls).
Proof.
  induction urls as [| url rest IH]; simpl; [apply extends_ret |].
  unfold download_file. trace_grows. exact IH.
Qed.

(** The first call of a step is the rendering of its URL. *)
Lemma solve_single_quiz_renders_first (email secret url : json) (t : trace) :
  exists newer,
    fst (solve_single_quiz lib w email secret url t) = newer ++ ev_render url :: t.
Proof.
  unfold solve_single_quiz. rewrite logged_eq. unfold bind at 1.
  unfold render_page. rewrite logged_eq. unfold call at 1.
  destruct (browse w t url) as [page_content | e]; [| exists []; reflexivity].
  match goal with
  | |- exists newer, fst (?k ?t1) = _ => assert (H : extends k)
  end.
  { unfold parse_quiz_with_llm, fetch_files, solve_with_llm, submit_answer.
    trace_grows. apply download_files_extends. }
  apply H.
Qed.

Lemma chain_loop_extends (fuel : nat) (email secret : json) (start_time : float) :
  forall (u : json) (t : trace) (rs : list json),
  exists newer,
    fst (fst (chain_loop lib w self fuel email secret start_time u (t, rs))) = newer ++ t.
Proof.
  induction fuel as [| fuel IH]; intros u t rs; rewrite chain_loop_eq;
    (destruct (truthy u && _);
     [| destruct (truthy u); [exists [ev_time] | exists []]; reflexivity]).
  - exists [ev_time]. reflexivity.
  - destruct (solve_single_quiz_renders_first email secret u (ev_time :: t)) as [n Hn].
    destruct (solve_single_quiz lib w email secret u (ev_time :: t)) as [t1 [r | e]];
      simpl in Hn; subst t1.
    + destruct (decide r) as [[x |] | e].
      * destruct (IH x (n ++ ev_render u :: ev_time :: t) (rs ++ [r])) as [n2 H2].
        exists (n2 ++ n ++ [ev_render u; ev_time]). rewrite H2.
        rewrite <- !app_assoc. reflexivity.
      * exists (n ++ [ev_render u; ev_time]). simpl. rewrite <- app_assoc. reflexivity.
      * exists (n ++ [ev_render u; ev_time]). simpl. rewrite <- app_assoc. reflexivity.
    + exists (n ++ [ev_render u; ev_time]). simpl. rewrite <- app_assoc. reflexivity.
Qed.

(** An iteration that begins reads the clock and then renders its URL. *)
Lemma chain_loop_renders_first (fuel : nat) (email secret : json) (start_time : float)
      (u : json) (t : trace) (rs : list json) :
  truthy u = true ->
  (elapsed w start_time t <? max_time self)%float = true ->
  exists newer,
    fst (fst (chain_loop lib w self (S fuel) email secret start_time u (t, rs)))
    = newer ++ ev_render u :: ev_time :: t.
Proof.
  intros Hu Ht. rewrite chain_loop_eq, Hu, Ht. cbn [andb].
  destruct (solve_single_quiz_renders_first email secret u (ev_time :: t)) as [n Hn].
  destruct (solve_single_quiz lib w email secret u (ev_time :: t)) as [t1 [r | e]];
    simpl in Hn; subst t1; [| exists n; reflexivity].
  destruct (decide r) as [[x |] | e]; try (exists n; reflexivity).
  destruct (chain_loop_extends fuel email secret start_time x
              (n ++ ev_render u :: ev_time :: t) (rs ++ [r])) as [n2 H2].
  exists (n2 ++ n). rewrite H2, <- app_assoc. reflexivity.
Qed.

(** C5.  An iteration whose submission result has a true [correct]: the
    result is appended; with a (non-empty) [url] in it the loop goes on
    with [current_url] equal to that URL, and the next iteration, which
    the elapsed-time check comes before, renders exactly that URL; with no
    [url] the loop ends there. *)
Theorem correct_answer_follows_next_url (fuel : nat) (email secret : json)
        (start_time : float) (u : json) (t : trace) (results : list json)
        (t1 : trace) (d : list (string * json)) (c : json) :
  truthy u = true ->
  (elapsed w start_time t <? max_time self)%float = true ->
  solve_single_quiz lib w email secret u (ev_time :: t) = (t1, Return (JDict d)) ->
  assoc "correct" d = Some c ->
  truthy c = true ->
  (forall x : json,
      assoc "url" d = Some x -> truthy x = true ->
      chain_loop lib w self (S fuel) email secret start_time u (t, results)
      = chain_loop lib w self fuel email secret start_time x (t1, results ++ [JDict d])
      /\
      ((elapsed w start_time t1 <? max_time self)%float = true ->
       forall fuel' : nat, exists newer,
           fst (fst (chain_loop lib w self (S fuel') email secret start_time x
                                (t1, results ++ [JDict d])))
           = newer ++ ev_render x :: ev_time :: t1))
  /\
  (assoc "url" d = None ->
   chain_loop lib w self (S fuel) email secret start_time u (t, results)
   = ((t1, results ++ [JDict d]), Return true)).
Proof.
  intros Hu Ht Hq Hc Hct. split.
  - intros x Hx Hxt.
    split; [| intros Ht1 fuel'; apply chain_loop_renders_first; assumption].
    rewrite chain_loop_eq, Hu, Ht. simpl. rewrite Hq.
    unfold decide. simpl. rewrite Hc. simpl. rewrite Hct, Hx, Hxt. reflexivity.
  - intros Hx. rewrite chain_loop_eq, Hu, Ht. simpl. rewrite Hq.
    unfold decide. simpl. rewrite Hc. simpl. rewrite Hct, Hx. reflexivity.
Qed.

(** C6.  An iteration whose submission result has a false [correct]: the
    result is appended, one more element in [results]; with a (non-empty)
    [url] in it the loop goes on at that URL, which is the one the next
    iteration renders, not the same one again; with no [url] the loop ends
    after appending exactly that result. *)
Theorem incorrect_answer_skips_or_stops (fuel : nat) (email secret : json)
        (start_time : float) (u : json) (t : trace) (results : list json)
        (t1 : trace) (d : list (string * json)) (c : json) :
  truthy u = true ->
  (elapsed w start_time t <? max_time self)%float = true ->
  solve_single_quiz lib w email secret u (ev_time :: t) = (t1, Return (JDict d)) ->
  assoc "correct" d = Some c ->
  truthy c = false ->
  List.length (results ++ [JDict d]) = S (List.length results)
  /\
  (forall x : json,
      assoc "url" d = Some x -> truthy x = true ->
      chain_loop lib w self (S fuel) email secret start_time u (t, results)
      = chain_loop lib w self fuel email secret start_time x (t1, results ++ [JDict d])
      /\
      ((elapsed w start_time t1 <? max_time self)%float = true ->
       forall fuel' : nat, exists newer,
           fst (fst (chain_loop lib w self (S fuel') email secret start_time x
                                (t1, results ++ [JDict d])))
           = newer ++ ev_render x :: ev_time :: t1))
  /\
  (assoc "url" d = None ->
   chain_loop lib w self (S fuel) email secret start_time u (t, results)
   = ((t1, results ++ [JDict d]), Return true)).
Proof.
  intros Hu Ht Hq Hc Hct. split; [| split].
  - rewrite length_app. simpl. lia.
  - intros x Hx Hxt.
    split; [| intros Ht1 fuel'; apply chain_loop_renders_first; assumption].
    rewrite chain_loop_eq, Hu, Ht. simpl. rewrite Hq.
    unfold decide. simpl. rewrite Hc. simpl. rewrite Hct, Hx, Hxt. reflexivity.
  - intros Hx. rewrite chain_loop_eq, Hu, Ht. simpl. rewrite Hq.
    unfold decide. simpl. rewrite Hc. simpl. rewrite Hct, Hx. reflexivity.
Qed.

(** C9.  With an empty or [None] initial URL the chain makes no iteration:
    it returns the empty list after reading the clock once for
    [start_time], with no render, parse, fetch, answer or submit call.  And
    a submission result whose [url] is the empty string ends the chain just
    as one without [url] does. *)
Theorem empty_url_ends_chain (fuel : nat) (email secret : json) :
  (forall (initial_url : json) (t : trace),
      initial_url = JNull \/ initial_url = JStr "" ->
      solve_quiz_chain lib w self fuel email secret initial_url t
      = (ev_time :: t, Return (Some [])))
  /\
  (forall (start_time : float) (u : json) (t : trace) (results : list json)
          (t1 : trace) (d : list (string * json)),
      truthy u = true ->
      (elapsed w start_time t <? max_time self)%float = true ->
      solve_single_quiz lib w email secret u (ev_time :: t) = (t1, Return (JDict d)) ->
      assoc "url" d = Some (JStr "") \/ assoc "url" d = None ->
      chain_loop lib w self (S fuel) email secret start_time u (t, results)
      = ((t1, results ++ [JDict d]), Return true)).
Proof.
  split.
  - intros initial_url t [-> | ->]; rewrite solve_quiz_chain_eq, chain_loop_eq; reflexivity.
  - intros start_time u t results t1 d Hu Ht Hq Hx.
    rewrite chain_loop_eq, Hu, Ht. simpl. rewrite Hq.
    unfold decide. simpl.
    destruct (truthy match assoc "correct" d with Some x => x | None => JNull end);
      destruct Hx as [-> | ->]; reflexivity.
Qed.
End Chain.

(** C4.  With the budget [__init__] sets, 180 seconds: the loop guard lets
    an iteration begin only when the elapsed time it computes is strictly
    below 180; and once that elapsed time is 180 or more the loop ends at
    this guard, with the results accumulated so far and no further call
    than the guard's own clock reading (which happens for a non-empty
    [current_url] only). *)
Theorem time_budget_guard (lib : PyLib) (w : World) (openai_api_key : string) (fuel : nat)
        (email secret current_url : json) (start_time : float)
        (t : trace) (results : list json) :
  max_time (QuizSolver_init openai_api_key) = 180%float
  /\
  (forall s : LS,
      loop_guard w (QuizSolver_init openai_api_key) start_time current_url (t, results)
      = (s, Return true) ->
      (elapsed w start_time t <? 180)%float = true)
  /\
  ((180 <=? elapsed w start_time t)%float = true ->
   chain_loop lib w (QuizSolver_init openai_api_key) fuel email secret start_time
              current_url (t, results)
   = ((if truthy current_url then ev_time :: t else t, results), Return true)).
Proof.
  split; [reflexivity | split].
  - intros s. rewrite loop_guard_eq. simpl max_time.
    destruct (truthy current_url); intros H; inversion H; reflexivity.
  - intros Hlate. rewrite chain_loop_eq. simpl max_time.
    rewrite (float_le_not_lt _ _ Hlate), andb_false_r. reflexivity.
Qed.

(** ** One step: parse, fetch, answer *)

Section Step.
Variable lib : PyLib.
Variable w : World.

(** C1 (as the code has it).  In an iteration whose parse reply decodes to
    an object without [submit_url]: the parse is no error,
    [parse_quiz_with_llm] returns the object; when the fetches and the
    answer then succeed, [submit_answer] is invoked with [None] for the
    URL and the POST is attempted; and when that POST raises, its error
    ends the chain at that iteration, with no result appended. *)
Theorem parse_without_submit_url (self : QuizSolver) (fuel : nat)
        (email secret u : json) (start_time : float) (t : trace) (results : list json)
        (page_content : page) (reply : string) (d : list (string * json)) :
  truthy u = true ->
  (elapsed w start_time t <? max_time self)%float = true ->
  browse w (ev_time :: t) u = Return page_content ->
  chat_create w (ev_render u :: ev_time :: t) (parse_request page_content)
  = Return (Some reply) ->
  json_loads lib reply = Return (JDict d) ->
  assoc "submit_url" d = None ->
  parse_quiz_with_llm lib w page_content (ev_render u :: ev_time :: t)
  = (ev_chat (parse_request page_content) :: ev_render u :: ev_time :: t, Return (JDict d))
  /\
  (forall (t2 t3 : trace) (file_data : list file_payload) (answer : json),
      fetch_files w (JDict d)
                  (ev_chat (parse_request page_content) :: ev_render u :: ev_time :: t)
      = (t2, Return file_data) ->
      solve_with_llm lib w (JDict d) file_data t2 = (t3, Return answer) ->
      solve_single_quiz lib w email secret u (ev_time :: t)
      = (ev_post JNull (submit_payload email secret u answer) :: t3,
         session_post w t3 JNull (submit_payload email secret u answer))
      /\
      (forall e : exn,
          session_post w t3 JNull (submit_payload email secret u answer) = Raise e ->
          chain_loop lib w self (S fuel) email secret start_time u (t, results)
          = ((ev_post JNull (submit_payload email secret u answer) :: t3, results),
             Return true))).
Proof.
  intros Hu Ht Hbrowse Hchat Hjson Hno.
  assert (Hparse : parse_quiz_with_llm lib w page_content (ev_render u :: ev_time :: t)
                   = (ev_chat (parse_request page_content) :: ev_render u :: ev_time :: t,
                      Return (JDict d))).
  { unfold parse_quiz_with_llm. rewrite logged_eq. unfold bind, call.
    rewrite Hchat. unfold lift. rewrite Hjson. reflexivity. }
  split; [exact Hparse |].
  intros t2 t3 file_data answer Hfetch Hsolve.
  assert (Hstep : solve_single_quiz lib w email secret u (ev_time :: t)
                  = (ev_post JNull (submit_payload email secret u answer) :: t3,
                     session_post w t3 JNull (submit_payload email secret u answer))).
  { unfold solve_single_quiz. rewrite logged_eq.
    unfold bind at 1. unfold render_page. rewrite logged_eq. unfold call at 1.
    rewrite Hbrowse.
    unfold bind at 1. rewrite Hparse.
    unfold bind at 1. rewrite Hfetch.
    unfold bind at 1. rewrite Hsolve.
    unfold bind, lift, dict_get. rewrite Hno.
    unfold submit_answer. rewrite logged_eq. unfold call, ret.
    destruct (session_post w t3 JNull (submit_payload email secret u answer)); reflexivity. }
  split; [exact Hstep |].
  intros e Hpost.
  rewrite chain_loop_eq, Hu, Ht. cbn [andb]. rewrite Hstep, Hpost. reflexivity.
Qed.

(** C3 (as the code has it).  [download_file] returns the body and the
    content type (the empty string without a header) exactly for status
    200, provided the body can be read; every other status, the other 2xx
    ones too, raises. *)
Theorem download_file_needs_200 (url : json) (t : trace) (response : http_response) :
  session_get w t url = Return response ->
  (status response = 200%Z ->
   download_file w url t
   = (ev_get url :: t,
      match read response with
      | Return body =>
          Return {| content := body;
                    content_type := match content_type_header response with
                                    | Some ct => ct
                                    | None => ""
                                    end |}
      | Raise e => Raise e
      end))
  /\
  (status response <> 200%Z ->
   download_file w url t = (ev_get url :: t, Raise (DownloadFailed (status response)))).
Proof.
  intros Hget.
  split; intros Hs; unfold download_file; rewrite logged_eq; unfold bind at 1, call;
    rewrite Hget; cbv beta iota.
  - rewrite Hs. simpl. unfold bind, lift, ret. destruct (read response); reflexivity.
  - apply Z.eqb_neq in Hs. rewrite Hs. reflexivity.
Qed.

Lemma attach_files_skip (file_info : file_payload) (before after : list file_payload) :
  (forall user_content, attach_file lib file_info user_content = Return user_content) ->
  forall user_content,
    attach_files lib (before ++ file_info :: after) user_content
    = attach_files lib (before ++ after) user_content.
Proof.
  intros Hskip. induction before as [| f before IH]; intros user_content; simpl.
  - rewrite Hskip. reflexivity.
  - destruct (attach_file lib f user_content); simpl; [apply IH | reflexivity].
Qed.

Lemma attach_if_any (file_data : list file_payload) (user_content : list content_part) :
  match file_data with
  | [] => Return user_content
  | _ :: _ => attach_files lib file_data user_content
  end = attach_files lib file_data user_content.
Proof. destruct file_data; reflexivity. Qed.

(** C10.  A downloaded file whose content type contains none of "pdf",
    "image", "text", "csv" (whatever the case) adds no part to the request:
    the request built, and with it the whole answering step, is the one
    built without that file. *)
Theorem unrecognised_file_adds_nothing (quiz_info : json)
        (before after : list file_payload) (file_info : file_payload) :
  str_in "pdf" (lower (content_type file_info)) = false ->
  str_in "image" (lower (content_type file_info)) = false ->
  str_in "text" (lower (content_type file_info)) = false ->
  str_in "csv" (lower (content_type file_info)) = false ->
  (forall user_content, attach_file lib file_info user_content = Return user_content)
  /\
  answer_request lib quiz_info (before ++ file_info :: after)
  = answer_request lib quiz_info (before ++ after)
  /\
  (forall t, solve_with_llm lib w quiz_info (before ++ file_info :: after) t
             = solve_with_llm lib w quiz_info (before ++ after) t).
Proof.
  intros Hpdf Himage Htext Hcsv.
  assert (Hskip : forall user_content,
             attach_file lib file_info user_content = Return user_content).
  { intros user_content. unfold attach_file. rewrite Hpdf, Himage, Htext, Hcsv. reflexivity. }
  assert (Hreq : answer_request lib quiz_info (before ++ file_info :: after)
                 = answer_request lib quiz_info (before ++ after)).
  { unfold answer_request.
    destruct (getitem quiz_info "question") as [question | e]; simpl; [| reflexivity].
    destruct (dict_get quiz_info "answer_format" (JStr "appropriate format")) as [fmt | e];
      simpl; [| reflexivity].
    rewrite !attach_if_any, (attach_files_skip file_info before after Hskip). reflexivity. }
  split; [exact Hskip | split; [exact Hreq |]].
  intros t. unfold solve_with_llm. rewrite !logged_eq, Hreq. reflexivity.
Qed.

(** C7 (as the code has it).  For a format that contains "json" or
    "object" and none of "number", "int", "boolean", "bool" (whatever the
    case), [format_answer] returns what [json.loads] decodes the text to,
    and the text itself, unchanged, when the decoding fails; it does not
    raise. *)
Theorem format_answer_json (answer_text fmt : string) :
  str_in "json" (lower fmt) || str_in "object" (lower fmt) = true ->
  str_in "number" (lower fmt) || str_in "int" (lower fmt) = false ->
  str_in "boolean" (lower fmt) || str_in "bool" (lower fmt) = false ->
  format_answer lib answer_text (JStr fmt)
  = match json_loads lib answer_text with
    | Return v => Return v
    | Raise _ => Return (JStr answer_text)
    end.
Proof.
  intros Hjson Hnum Hbool.
  destruct fmt as [| c fmt']; [discriminate Hjson |].
  unfold format_answer. cbn [truthy String.eqb negb].
  unfold format_attempt. rewrite Hnum, Hbool, Hjson.
  destruct (json_loads lib answer_text); reflexivity.
Qed.
End Step.

(** ** The number format *)

Local Open Scope string_scope.

Lemma append_empty_r (s : string) : s ++ "" = s.
Proof. induction s as [| c s IH]; simpl; [| rewrite IH]; reflexivity. Qed.

Lemma append_assoc (a b c : string) : (a ++ b) ++ c = a ++ b ++ c.
Proof. induction a as [| x a IH]; simpl; [| rewrite IH]; reflexivity. Qed.

Lemma match_star_all (p : ascii -> bool) (cont : matcher) (ds rest m r : string) :
  string_forallb p ds = true ->
  starts_with p rest = false ->
  cont rest = Some (m, r) ->
  match_star p cont (ds ++ rest) = Some (ds ++ m, r).
Proof.
  intros Hds Hrest Hcont. induction ds as [| c ds IH]; simpl.
  - destruct rest as [| c rest]; simpl in *; [exact Hcont |].
    rewrite Hrest. exact Hcont.
  - simpl in Hds. apply andb_prop in Hds. destruct Hds as [Hc Hds].
    rewrite Hc, (IH Hds). reflexivity.
Qed.

Lemma digit_not_minus (c : ascii) : is_digit c = true -> is_char "-" c = false.
Proof.
  intros H. unfold is_char. destruct (Ascii.eqb_spec "-" c) as [<- |]; [discriminate H | reflexivity].
Qed.

Lemma digit_not_point (c : ascii) : is_digit c = true -> is_char "." c = false.
Proof.
  intros H. unfold is_char. destruct (Ascii.eqb_spec "." c) as [<- |]; [discriminate H | reflexivity].
Qed.

Lemma fraction_matches (point : bool) (fs post : string) :
  string_forallb is_digit fs = true ->
  (point = false -> fs = "" /\ starts_with (is_char ".") post = false) ->
  starts_with is_digit post = false ->
  re_match [(Opt, is_char "."); (Star, is_digit)] (fraction_text point fs ++ post)
  = Some (fraction_text point fs, post).
Proof.
  intros Hfs Hpoint Hpost. cbn [re_match]. unfold match_opt.
  destruct point; simpl fraction_text.
  - cbn [append match_one]. unfold is_char at 1. rewrite Ascii.eqb_refl.
    rewrite (match_star_all is_digit _ fs post "" post Hfs Hpost eq_refl).
    rewrite append_empty_r. reflexivity.
  - destruct (Hpoint eq_refl) as [-> Hdot]. cbn [append].
    assert (H1 : match_one (is_char ".") (match_star is_digit (fun s => Some ("", s))) post = None).
    { destruct post as [| c post]; simpl in *; [reflexivity |]. rewrite Hdot. reflexivity. }
    rewrite H1.
    apply (match_star_all is_digit _ "" post "" post eq_refl Hpost eq_refl).
Qed.

Lemma fraction_no_digit_first (point : bool) (fs post : string) :
  starts_with is_digit post = false ->
  (point = false -> fs = "" /\ starts_with (is_char ".") post = false) ->
  starts_with is_digit (fraction_text point fs ++ post) = false.
Proof.
  intros Hpost Hpoint. destruct point; simpl; [reflexivity |].
  exact Hpost.
Qed.

Lemma unsigned_matches (point : bool) (ds fs post : string) :
  ds <> "" ->
  string_forallb is_digit ds = true ->
  string_forallb is_digit fs = true ->
  (point = false -> fs = "" /\ starts_with (is_char ".") post = false) ->
  starts_with is_digit post = false ->
  re_match unsigned_pattern (ds ++ fraction_text point fs ++ post)
  = Some (ds ++ fraction_text point fs, post).
Proof.
  intros Hne Hds Hfs Hpoint Hpost.
  change (re_match unsigned_pattern)
    with (match_one is_digit
            (match_star is_digit (re_match [(Opt, is_char "."); (Star, is_digit)]))).
  destruct ds as [| c ds]; [congruence |]. simpl in Hds.
  apply andb_prop in Hds. destruct Hds as [Hc Hds].
  cbn [append match_one]. rewrite Hc.
  rewrite (match_star_all is_digit _ ds _ (fraction_text point fs) post Hds
             (fraction_no_digit_first point fs post Hpost Hpoint)
             (fraction_matches point fs post Hfs Hpoint Hpost)).
  reflexivity.
Qed.

Lemma unsigned_needs_digit (s : string) :
  starts_with is_digit s = false -> re_match unsigned_pattern s = None.
Proof.
  intros H.
  change (re_match unsigned_pattern)
    with (match_one is_digit
            (match_star is_digit (re_match [(Opt, is_char "."); (Star, is_digit)]))).
  destruct s as [| c s]; simpl in *; [reflexivity |]. rewrite H. reflexivity.
Qed.

Lemma number_pattern_eq (s : string) :
  re_match number_pattern s
  = match s with
    | String c s' =>
        if is_char "-" c then
          match consume c (re_match unsigned_pattern s') with
          | Some res => Some res
          | None => re_match unsigned_pattern s
          end
        else re_match unsigned_pattern s
    | EmptyString => re_match unsigned_pattern s
    end.
Proof.
  change (re_match number_pattern) with (match_opt (is_char "-") (re_match unsigned_pattern)).
  unfold match_opt, match_one. destruct s as [| c s]; [reflexivity |].
  destruct (is_char "-" c); reflexivity.
Qed.

Lemma token_matches (neg point : bool) (ds fs post : string) :
  ds <> "" ->
  string_forallb is_digit ds = true ->
  string_forallb is_digit fs = true ->
  (point = false -> fs = "" /\ starts_with (is_char ".") post = false) ->
  starts_with is_digit post = false ->
  re_match number_pattern (sign_text neg ++ ds ++ fraction_text point fs ++ post)
  = Some (sign_text neg ++ ds ++ fraction_text point fs, post).
Proof.
  intros Hne Hds Hfs Hpoint Hpost.
  pose proof (unsigned_matches point ds fs post Hne Hds Hfs Hpoint Hpost) as Hdigits.
  rewrite number_pattern_eq.
  destruct neg; simpl sign_text; cbn [append].
  - unfold is_char at 1. rewrite Ascii.eqb_refl, Hdigits. reflexivity.
  - destruct ds as [| c ds]; [congruence |]. simpl in Hds.
    apply andb_prop in Hds. destruct Hds as [Hc _].
    cbn [append] in *. rewrite (digit_not_minus c Hc). exact Hdigits.
Qed.

Lemma no_match_at (c : ascii) (rest : string) :
  is_digit c = false ->
  (is_char "-" c = true -> starts_with is_digit rest = false) ->
  re_match number_pattern (String c rest) = None.
Proof.
  intros Hc Hminus. rewrite number_pattern_eq.
  rewrite (unsigned_needs_digit (String c rest) Hc).
  destruct (is_char "-" c); [| reflexivity].
  rewrite (unsigned_needs_digit rest (Hminus eq_refl)). reflexivity.
Qed.

Lemma findall_no_digit (s : string) :
  string_forallb not_digit s = true -> re_findall number_pattern s = [].
Proof.
  unfold re_findall. induction s as [| c s IH]; intros H.
  - reflexivity.
  - simpl in H. apply andb_prop in H. destruct H as [Hc Hs].
    apply negb_true_iff in Hc.
    cbn [findall_from]. rewrite no_match_at; [apply IH, Hs | exact Hc |].
    intros _. destruct s as [| c' s]; [reflexivity |].
    simpl in Hs. apply andb_prop in Hs. destruct Hs as [Hc' _].
    apply negb_true_iff in Hc'. exact Hc'.
Qed.

Lemma findall_first_token (pre tok post : string) (neg : bool) :
  string_forallb not_digit pre = true ->
  (neg = false -> ends_with (is_char "-") pre = false) ->
  tok <> "" ->
  (neg = true -> starts_with (is_char "-") tok = true) ->
  re_match number_pattern (tok ++ post) = Some (tok, post) ->
  exists more, re_findall number_pattern (pre ++ tok ++ post) = tok :: more.
Proof.
  intros Hpre Hend Htok Hneg Hmatch. unfold re_findall.
  induction pre as [| c pre IH].
  - cbn [append]. destruct tok as [| c tok]; [congruence |].
    cbn [append findall_from] in *. rewrite Hmatch. eauto.
  - simpl in Hpre. apply andb_prop in Hpre. destruct Hpre as [Hc Hpre].
    apply negb_true_iff in Hc.
    cbn [append findall_from]. rewrite no_match_at.
    + apply IH; [exact Hpre |].
      intros Hn. specialize (Hend Hn). destruct pre; [reflexivity | exact Hend].
    + exact Hc.
    + intros Hminus. destruct pre as [| c' pre].
      * cbn [append]. destruct neg.
        -- destruct tok as [| c' tok]; [congruence |]. cbn [append starts_with].
           specialize (Hneg eq_refl). cbn [starts_with] in Hneg.
           destruct (is_digit c') eqn:Hd; [| reflexivity].
           rewrite (digit_not_minus c' Hd) in Hneg. discriminate.
        -- specialize (Hend eq_refl). cbn [ends_with] in Hend. congruence.
      * simpl in Hpre. apply andb_prop in Hpre. destruct Hpre as [Hc' _].
        apply negb_true_iff in Hc'. exact Hc'.
Qed.

Lemma digits_value_app (ds fs : string) (n : Z) :
  digits_value_from n (ds ++ fs) = digits_value_from (digits_value_from n ds) fs.
Proof. revert n. induction ds as [| c ds IH]; intros n; simpl; [| rewrite IH]; reflexivity. Qed.

Lemma scan_fraction (fs : string) :
  forall (nd : nat) (n k : Z),
    string_forallb is_digit fs = true ->
    scan_decimal fs true (S nd) n k
    = Some (digits_value_from n fs, (k + Z.of_nat (String.length fs))%Z).
Proof.
  induction fs as [| c fs IH]; intros nd n k H; simpl.
  - rewrite Z.add_0_r. reflexivity.
  - simpl in H. apply andb_prop in H. destruct H as [Hc Hfs].
    rewrite Hc, (IH (S nd) _ _ Hfs). f_equal. f_equal. lia.
Qed.

Lemma scan_integer (ds rest : string) :
  forall (nd : nat) (n : Z),
    string_forallb is_digit ds = true ->
    scan_decimal (ds ++ rest) false nd n 0
    = scan_decimal rest false (nd + String.length ds) (digits_value_from n ds) 0.
Proof.
  induction ds as [| c ds IH]; intros nd n H; simpl.
  - rewrite Nat.add_0_r. reflexivity.
  - simpl in H. apply andb_prop in H. destruct H as [Hc Hds].
    rewrite Hc, (IH (S nd) _ Hds), Nat.add_succ_r. reflexivity.
Qed.

Lemma scan_token (point : bool) (ds fs : string) :
  ds <> "" ->
  string_forallb is_digit ds = true ->
  string_forallb is_digit fs = true ->
  (point = false -> fs = "") ->
  scan_decimal (ds ++ fraction_text point fs) false 0 0 0
  = Some (digits_value (ds ++ fs), Z.of_nat (String.length fs)).
Proof.
  intros Hne Hds Hfs Hpoint. rewrite (scan_integer ds _ 0 0 Hds).
  unfold digits_value. rewrite digits_value_app.
  destruct ds as [| c ds]; [congruence |]. cbn [String.length Nat.add].
  destruct point; cbn [fraction_text].
  - cbn [scan_decimal]. change (is_digit ".") with false. cbv beta iota.
    change (is_char "." "." && negb false) with true. cbv beta iota.
    rewrite (scan_fraction fs _ _ 0 Hfs). reflexivity.
  - rewrite (Hpoint eq_refl). reflexivity.
Qed.

Lemma py_float_token (neg point : bool) (ds fs : string) :
  ds <> "" ->
  string_forallb is_digit ds = true ->
  string_forallb is_digit fs = true ->
  (point = false -> fs = "") ->
  py_float (sign_text neg ++ ds ++ fraction_text point fs)
  = Return (float_of_decimal neg (digits_value (ds ++ fs)) (Z.of_nat (String.length fs))).
Proof.
  intros Hne Hds Hfs Hpoint. unfold py_float.
  pose proof (scan_token point ds fs Hne Hds Hfs Hpoint) as Hscan.
  destruct neg; cbn [sign_text append].
  - change (is_char "-" "-") with true. cbv beta iota. rewrite Hscan. reflexivity.
  - destruct ds as [| c ds]; [congruence |]. cbn [append] in *.
    simpl in Hds. apply andb_prop in Hds. destruct Hds as [Hc _].
    rewrite (digit_not_minus c Hc). rewrite Hscan. reflexivity.
Qed.

Section NumberFormat.
Variable lib : PyLib.

(** C8 (as the code has it).  For a format that contains "number" or "int"
    (whatever the case): a text without any digit comes back unchanged; and
    when the text is [pre], then a token (an optional minus sign, digits
    [ds], optionally a point and digits [fs]), then [post], where the token
    is the first and longest the scan can take ([pre] has no digit and does
    not lend a minus sign, [post] does not continue the token), the answer
    is the integer obtained by rounding the token's decimal value to the
    nearest binary64 float and truncating that float toward zero; the text
    comes back unchanged when the float is an infinity. *)
Theorem format_answer_number (answer_text fmt : string) :
  str_in "number" (lower fmt) || str_in "int" (lower fmt) = true ->
  (string_forallb not_digit answer_text = true ->
   format_answer lib answer_text (JStr fmt) = Return (JStr answer_text))
  /\
  (forall (pre : string) (neg : bool) (ds : string) (point : bool) (fs post : string),
      answer_text = pre ++ (sign_text neg ++ ds ++ fraction_text point fs) ++ post ->
      string_forallb not_digit pre = true ->
      (neg = false -> ends_with (is_char "-") pre = false) ->
      ds <> "" ->
      string_forallb is_digit ds = true ->
      string_forallb is_digit fs = true ->
      (point = false -> fs = "" /\ starts_with (is_char ".") post = false) ->
      starts_with is_digit post = false ->
      format_answer lib answer_text (JStr fmt)
      = match py_int (float_of_decimal neg (digits_value (ds ++ fs))
                                       (Z.of_nat (String.length fs))) with
        | Return n => Return (JInt n)
        | Raise _ => Return (JStr answer_text)
        end).
Proof.
  intros Hfmt.
  assert (Htruthy : truthy (JStr fmt) = true).
  { destruct fmt; [discriminate Hfmt | reflexivity]. }
  split.
  - intros Hnone. unfold format_answer. rewrite Htruthy. cbn [negb].
    unfold format_attempt. rewrite Hfmt, (findall_no_digit _ Hnone). reflexivity.
  - intros pre neg ds point fs post Htext Hpre Hend Hne Hds Hfs Hpoint Hpost.
    assert (Hmatch := token_matches neg point ds fs post Hne Hds Hfs Hpoint Hpost).
    destruct (findall_first_token pre (sign_text neg ++ ds ++ fraction_text point fs) post neg
                                  Hpre Hend) as [more Hfind].
    + destruct neg; [discriminate |]. destruct ds; [congruence | discriminate].
    + intros ->. reflexivity.
    + rewrite !append_assoc. exact Hmatch.
    + unfold format_answer. rewrite Htruthy. cbn [negb].
      unfold format_attempt. rewrite Hfmt, Htext, Hfind.
      rewrite (py_float_token neg point ds fs Hne Hds Hfs (fun H => proj1 (Hpoint H))).
      cbn [obind].
      destruct (py_int _); reflexivity.
Qed.
End NumberFormat.

(** ** The claims on the three-quiz chain *)

Import Demo.

(** C1, against the claim: the parse reply has no [submit_url], yet parsing
    returns it, the step goes on to the answer, and the POST is attempted
    with [None] for its URL. *)
Lemma missing_submit_url_reaches_submit :
  snd (parse_quiz_with_llm lib (world (quiz_text false) still "" 200) page1
                           [ev_render (quiz "1")])
  = Return (quiz_value false)
  /\ getitem (quiz_value false) "submit_url" = Raise (KeyError "submit_url")
  /\ posted_to (fst (solve_quiz_chain lib (world (quiz_text false) still "" 200) solver 3
                                      email secret (quiz "1") []))
     = [JNull].
Proof. repeat split; vm_compute; reflexivity. Qed.

Lemma parse_without_submit_url_witness :
  posted_to (fst (solve_single_quiz lib (world (quiz_text false) still "" 200)
                                    email secret (quiz "1") [ev_time; ev_time]))
  = [JNull]
  /\ snd (chain_loop lib (world (quiz_text false) still "" 200) solver 3
                     email secret 1000 (quiz "1") ([ev_time], []))
     = Return true
  /\ snd (fst (chain_loop lib (world (quiz_text false) still "" 200) solver 3
                          email secret 1000 (quiz "1") ([ev_time], [])))
     = [].
Proof.
  edestruct (parse_without_submit_url lib (world (quiz_text false) still "" 200) solver 2
               email secret (quiz "1") 1000 [ev_time] [] page1 (quiz_text false))
    as [_ H];
    [reflexivity | reflexivity | reflexivity | reflexivity | lazy; reflexivity
     | reflexivity |].
  edestruct H as [Hstep Hchain]; [lazy; reflexivity | lazy; reflexivity |].
  pose proof (Hchain _ eq_refl) as Hend.
  split; [rewrite Hstep; reflexivity |].
  split; [exact (f_equal snd Hend) | exact (f_equal (fun x => snd (fst x)) Hend)].
Defined.

Lemma chain_stops_at_failing_step_witness :
  snd (solve_quiz_chain lib (world (quiz_text true) still "http://quiz/2" 200) solver 3
                        email secret (quiz "1") [])
  = Return (Some [grade (quiz "1")]).
Proof.
  erewrite (proj2 (chain_stops_at_failing_step
                     lib (world (quiz_text true) still "http://quiz/2" 200) solver 3
                     email secret (quiz "1") [])); cycle 1.
  - eapply advances_step;
      [reflexivity | reflexivity | lazy; reflexivity | lazy; reflexivity | apply advances_none].
  - reflexivity.
  - reflexivity.
  - lazy; reflexivity.
  - simpl; lia.
  - reflexivity.
Defined.

(** C3, against the claim: status 206 is a 2xx status and the body is
    there, yet [download_file] raises. *)
Lemma partial_content_is_refused :
  success_status 206 = true
  /\ snd (download_file (world (quiz_text true) still "" 206)
                        (JStr "http://files/data.csv") [])
     = Raise (DownloadFailed 206).
Proof. split; reflexivity. Qed.

Lemma download_file_needs_200_witness :
  download_file chain_world (JStr "http://files/data.csv") []
  = ([ev_get (JStr "http://files/data.csv")], Return csv_file)
  /\ download_file (world (quiz_text true) still "" 404) (JStr "http://files/data.csv") []
     = ([ev_get (JStr "http://files/data.csv")], Raise (DownloadFailed 404)).
Proof.
  split.
  - exact (proj1 (download_file_needs_200 chain_world (JStr "http://files/data.csv") [] _
                                          eq_refl) eq_refl).
  - apply (proj2 (download_file_needs_200 (world (quiz_text true) still "" 404)
                                          (JStr "http://files/data.csv") [] _ eq_refl)).
    discriminate.
Defined.

Lemma time_budget_guard_witness :
  (elapsed chain_world 1000 [ev_time] <? 180)%float = true
  /\ chain_loop lib (world (quiz_text true) late "" 200) (QuizSolver_init "sk-test") 3
                email secret 1000 (quiz "1") ([ev_time], [])
     = (([ev_time; ev_time], []), Return true).
Proof.
  split.
  - exact (proj1 (proj2 (time_budget_guard lib chain_world "sk-test" 3 email secret
                                           (quiz "1") 1000 [ev_time] []))
                 ([ev_time; ev_time], []) eq_refl).
  - exact (proj2 (proj2 (time_budget_guard lib (world (quiz_text true) late "" 200)
                                           "sk-test" 3 email secret
                                           (quiz "1") 1000 [ev_time] []))
                 eq_refl).
Defined.

Lemma correct_answer_follows_next_url_witness :
  chain_loop lib chain_world solver 3 email secret 1000 (quiz "1") ([ev_time], [])
  = chain_loop lib chain_world solver 2 email secret 1000 (quiz "2")
               (fst (solve_single_quiz lib chain_world email secret (quiz "1")
                                       [ev_time; ev_time]),
                [grade (quiz "1")])
  /\ chain_loop lib chain_world solver 1 email secret 1000 (quiz "3") ([ev_time], [])
     = ((fst (solve_single_quiz lib chain_world email secret (quiz "3") [ev_time; ev_time]),
         [grade (quiz "3")]),
        Return true).
Proof.
  split.
  - edestruct (correct_answer_follows_next_url lib chain_world solver 2 email secret 1000
                 (quiz "1") [ev_time] []) as [H _];
      [reflexivity | reflexivity | lazy; reflexivity | reflexivity | reflexivity |].
    destruct (H (quiz "2") eq_refl eq_refl) as [H1 _]. exact H1.
  - edestruct (correct_answer_follows_next_url lib chain_world solver 0 email secret 1000
                 (quiz "3") [ev_time] []) as [_ H];
      [reflexivity | reflexivity | lazy; reflexivity | reflexivity | reflexivity |].
    exact (H eq_refl).
Defined.

Lemma incorrect_answer_skips_or_stops_witness :
  chain_loop lib chain_world solver 3 email secret 1000 (quiz "2") ([ev_time], [])
  = chain_loop lib chain_world solver 2 email secret 1000 (quiz "3")
               (fst (solve_single_quiz lib chain_world email secret (quiz "2")
                                       [ev_time; ev_time]),
                [grade (quiz "2")])
  /\ chain_loop lib chain_world solver 1 email secret 1000 (quiz "4") ([ev_time], [])
     = ((fst (solve_single_quiz lib chain_world email secret (quiz "4") [ev_time; ev_time]),
         [grade (quiz "4")]),
        Return true).
Proof.
  split.
  - edestruct (incorrect_answer_skips_or_stops lib chain_world solver 2 email secret 1000
                 (quiz "2") [ev_time] []) as [_ [H _]];
      [reflexivity | reflexivity | lazy; reflexivity | reflexivity | reflexivity |].
    exact (proj1 (H (quiz "3") eq_refl eq_refl)).
  - edestruct (incorrect_answer_skips_or_stops lib chain_world solver 0 email secret 1000
                 (quiz "4") [ev_time] []) as [_ [_ H]];
      [reflexivity | reflexivity | lazy; reflexivity | reflexivity | reflexivity |].
    exact (H eq_refl).
Defined.

(** C7, against the claim: the format contains "json", the text decodes,
    and the answer is the first number in it, because the format contains
    "int" as well. *)
Lemma json_format_taken_as_number :
  str_in "json" (lower "JSON list of integers") = true
  /\ json_loads lib "[1, 2]" = Return (JList [JInt 1; JInt 2])
  /\ format_answer lib "[1, 2]" (JStr "JSON list of integers") = Return (JInt 1).
Proof. repeat split; vm_compute; reflexivity. Qed.

Lemma format_answer_json_witness :
  format_answer lib "not valid json{{" (JStr "object") = Return (JStr "not valid json{{").
Proof.
  exact (format_answer_json lib "not valid json{{" "object" eq_refl eq_refl eq_refl).
Defined.

(** C8, against the claim: the token 0.99999999999999999999 has integer
    part 0 and the answer is 1; the token 9007199254740993 is an integer
    and the answer is another one. *)
Lemma number_token_goes_through_float :
  format_answer lib "0.99999999999999999999" (JStr "number") = Return (JInt 1)
  /\ truncated_value false "0" = 0%Z
  /\ format_answer lib "9007199254740993" (JStr "number") = Return (JInt 9007199254740992)
  /\ truncated_value false "9007199254740993" = 9007199254740993%Z.
Proof. repeat split; vm_compute; reflexivity. Qed.

Lemma format_answer_number_witness :
  format_answer lib "The answer is 42." (JStr "number") = Return (JInt 42).
Proof.
  rewrite (proj2 (format_answer_number lib "The answer is 42." "number" eq_refl)
                 "The answer is " false "42" true "" "");
    try reflexivity; discriminate.
Defined.

Lemma empty_url_ends_chain_witness :
  solve_quiz_chain lib chain_world solver 3 email secret (JStr "") []
  = ([ev_time], Return (Some []))
  /\ chain_loop lib chain_world solver 1 email secret 1000 (quiz "5") ([ev_time], [])
     = ((fst (solve_single_quiz lib chain_world email secret (quiz "5") [ev_time; ev_time]),
         [grade (quiz "5")]),
        Return true).
Proof.
  split.
  - exact (proj1 (empty_url_ends_chain lib chain_world solver 3 email secret)
                 (JStr "") [] (or_intror eq_refl)).
  - eapply (proj2 (empty_url_ends_chain lib chain_world solver 0 email secret)
                  1000%float (quiz "5") [ev_time] []);
      [reflexivity | reflexivity | lazy; reflexivity | left; reflexivity].
Defined.

Lemma unrecognised_file_adds_nothing_witness :
  answer_request lib (quiz_value true) [csv_file; binary_file]
  = answer_request lib (quiz_value true) [csv_file].
Proof.
  exact (proj1 (proj2 (unrecognised_file_adds_nothing lib chain_world (quiz_value true)
                         [csv_file] [] binary_file eq_refl eq_refl eq_refl eq_refl))).
Defined.

(** * Further properties of the code *)

Local Open Scope list_scope.

(** ** Kinds of calls *)

Lemma emits_lift {A} (P : event -> bool) (o : outcome A) : emits P (lift o).
Proof. intros t. exists []. split; reflexivity. Qed.

Lemma emits_ret {A} (P : event -> bool) (a : A) : emits P (ret a).
Proof. intros t. exists []. split; reflexivity. Qed.

Lemma emits_raise {A} (P : event -> bool) (e : exn) : emits P (@raise trace A e).
Proof. intros t. exists []. split; reflexivity. Qed.

Lemma emits_call {A} (P : event -> bool) (ev : event) (oracle : trace -> outcome A) :
  P ev = true -> emits P (call ev oracle).
Proof. intros H t. exists [ev]. split; [reflexivity | simpl; rewrite H; reflexivity]. Qed.

Lemma emits_bind {A B} (P : event -> bool) (m : M trace A) (f : A -> M trace B) :
  emits P m -> (forall a, emits P (f a)) -> emits P (bind m f).
Proof.
  intros Hm Hf t. unfold bind.
  destruct (Hm t) as [n1 [H1 P1]]. destruct (m t) as [t1 [a | e]]; simpl in H1; subst t1.
  - destruct (Hf a (n1 ++ t)) as [n2 [H2 P2]]. exists (n2 ++ n1).
    rewrite H2, forallb_app, P1, P2, app_assoc. split; reflexivity.
  - exists n1. split; [reflexivity | exact P1].
Qed.

Lemma emits_logged {A} (P : event -> bool) (m : M trace A) : emits P m -> emits P (logged m).
Proof. intros Hm t. rewrite logged_eq. apply Hm. Qed.

Ltac emits_tac :=
  repeat first
    [ apply emits_logged
    | apply emits_lift
    | apply emits_ret
    | apply emits_raise
    | apply emits_call; reflexivity
    | apply emits_bind; [| intros ?]
    | match goal with
      | |- emits _ (match ?x with _ => _ end) => destruct x
      end ].

(** What a computation that [emits] does at one trace. *)
Lemma emits_at {A} (P : event -> bool) (m : M trace A) (t : trace) :
  emits P m ->
  exists newer, m t = (newer ++ t, snd (m t)) /\ forallb P newer = true.
Proof.
  intros Hm. destruct (Hm t) as [newer [H HP]]. exists newer.
  destruct (m t) as [t' r]. simpl in *. subst t'. split; [reflexivity | exact HP].
Qed.

Section Calls.
Variable lib : PyLib.
Variable w : World.

Lemma download_files_emits (urls : list json) : emits is_get (download_files w urls).
Proof.
  induction urls as [| url rest IH]; simpl; [apply emits_ret |].
  unfold download_file. emits_tac. exact IH.
Qed.

Lemma emits_weaken {A} (P Q : event -> bool) (m : M trace A) :
  (forall e, P e = true -> Q e = true) -> emits P m -> emits Q m.
Proof.
  intros HPQ Hm t. destruct (Hm t) as [newer [H HP]]. exists newer. split; [exact H |].
  rewrite forallb_forall in *. auto.
Qed.

Lemma parse_emits (page_content : page) :
  emits inner_call (parse_quiz_with_llm lib w page_content).
Proof. unfold parse_quiz_with_llm. emits_tac. Qed.

Lemma fetch_files_emits (quiz_info : json) : emits inner_call (fetch_files w quiz_info).
Proof.
  unfold fetch_files. emits_tac.
  apply (emits_weaken is_get); [| apply download_files_emits].
  intros [] H; try discriminate H; reflexivity.
Qed.

Lemma solve_with_llm_emits (quiz_info : json) (file_data : list file_payload) :
  emits inner_call (solve_with_llm lib w quiz_info file_data).
Proof. unfold solve_with_llm. emits_tac. Qed.

(** The stages of one step, one after the other. *)
Lemma solve_single_quiz_eq (email secret url : json) (t : trace) :
  solve_single_quiz lib w email secret url t =
  match browse w t url with
  | Raise e => (ev_render url :: t, Raise e)
  | Return page_content =>
      match parse_quiz_with_llm lib w page_content (ev_render url :: t) with
      | (t1, Raise e) => (t1, Raise e)
      | (t1, Return quiz_info) =>
          match fetch_files w quiz_info t1 with
          | (t2, Raise e) => (t2, Raise e)
          | (t2, Return file_data) =>
              match solve_with_llm lib w quiz_info file_data t2 with
              | (t3, Raise e) => (t3, Raise e)
              | (t3, Return answer) =>
                  match dict_get quiz_info "submit_url" JNull with
                  | Raise e => (t3, Raise e)
                  | Return submit_url =>
                      (ev_post submit_url (submit_payload email secret url answer) :: t3,
                       session_post w t3 submit_url
                                    (submit_payload email secret url answer))
                  end
              end
          end
      end
  end.
Proof.
  unfold solve_single_quiz. rewrite logged_eq. unfold bind at 1.
  unfold render_page. rewrite logged_eq. unfold call at 1.
  destruct (browse w t url) as [page_content | e]; [| reflexivity].
  unfold bind at 1.
  destruct (parse_quiz_with_llm lib w page_content (ev_render url :: t))
    as [t1 [quiz_info | e]]; [| reflexivity].
  unfold bind at 1.
  destruct (fetch_files w quiz_info t1) as [t2 [file_data | e]]; [| reflexivity].
  unfold bind at 1.
  destruct (solve_with_llm lib w quiz_info file_data t2) as [t3 [answer | e]];
    [| reflexivity].
  unfold bind at 1, lift at 1.
  destruct (dict_get quiz_info "submit_url" JNull) as [submit_url | e]; [| reflexivity].
  unfold bind, submit_answer. rewrite logged_eq. unfold call, ret.
  destruct (session_post w t3 submit_url _); reflexivity.
Qed.

(** The calls of one step: the rendering first, inner calls after it, and,
    when the step gets that far, the submission last. *)
Lemma step_events (email secret url : json) (t : trace) :
  exists mid,
    forallb inner_call mid = true /\
    ((exists e, solve_single_quiz lib w email secret url t
                = (mid ++ ev_render url :: t, Raise e))
     \/
     (exists submit_url answer,
         solve_single_quiz lib w email secret url t
         = (ev_post submit_url (submit_payload email secret url answer)
              :: mid ++ ev_render url :: t,
            session_post w (mid ++ ev_render url :: t) submit_url
                         (submit_payload email secret url answer)))).
Proof.
  rewrite solve_single_quiz_eq.
  destruct (browse w t url) as [page_content | e];
    [| exists []; split; [reflexivity | left; exists e; reflexivity]].
  destruct (emits_at _ _ (ev_render url :: t) (parse_emits page_content))
    as [n1 [H1 P1]]. rewrite H1.
  destruct (snd (parse_quiz_with_llm lib w page_content (ev_render url :: t)))
    as [quiz_info | e];
    [| exists n1; split; [exact P1 | left; exists e; reflexivity]].
  destruct (emits_at _ _ (n1 ++ ev_render url :: t) (fetch_files_emits quiz_info))
    as [n2 [H2 P2]]. rewrite H2.
  destruct (snd (fetch_files w quiz_info (n1 ++ ev_render url :: t))) as [file_data | e];
    [| exists (n2 ++ n1); rewrite forallb_app, P1, P2, <- app_assoc;
       split; [reflexivity | left; exists e; reflexivity]].
  destruct (emits_at _ _ (n2 ++ n1 ++ ev_render url :: t)
                     (solve_with_llm_emits quiz_info file_data)) as [n3 [H3 P3]].
  rewrite H3.
  destruct (snd (solve_with_llm lib w quiz_info file_data (n2 ++ n1 ++ ev_render url :: t)))
    as [answer | e];
    [| exists (n3 ++ n2 ++ n1); rewrite !forallb_app, P1, P2, P3, <- !app_assoc;
       split; [reflexivity | left; exists e; reflexivity]].
  exists (n3 ++ n2 ++ n1). rewrite !forallb_app, P1, P2, P3, <- !app_assoc.
  split; [reflexivity |].
  destruct (dict_get quiz_info "submit_url" JNull) as [submit_url | e];
    [| left; exists e; reflexivity].
  right. exists submit_url, answer. reflexivity.
Qed.
End Calls.

(** ** Counting renderings and submissions *)

Lemma rendered_app (a b : trace) : rendered (a ++ b) = rendered b ++ rendered a.
Proof. unfold rendered. rewrite flat_map_app, rev_app_distr. reflexivity. Qed.

Lemma posted_to_app (a b : trace) : posted_to (a ++ b) = posted_to b ++ posted_to a.
Proof. unfold posted_to. rewrite flat_map_app, rev_app_distr. reflexivity. Qed.

Lemma inner_calls_silent (mid : trace) :
  forallb inner_call mid = true -> rendered mid = [] /\ posted_to mid = [].
Proof.
  induction mid as [| e mid IH]; intros H; [split; reflexivity |].
  simpl in H. apply andb_prop in H. destruct H as [He Hmid].
  destruct (IH Hmid) as [Hr Hp].
  change (e :: mid) with ([e] ++ mid). rewrite rendered_app, posted_to_app, Hr, Hp.
  destruct e; try discriminate He; split; reflexivity.
Qed.

Lemma decide_continue (r x : json) :
  decide r = Return (Continue x) -> x = url_of r /\ truthy (url_of r) = true.
Proof.
  unfold decide, url_of. destruct r as [| b | n | f | s | l | d]; try discriminate.
  cbn [dict_get obind].
  destruct (truthy match assoc "correct" d with Some c => c | None => JNull end);
    cbn [obind];
    destruct (truthy match assoc "url" d with Some y => y | None => JNull end) eqn:Hy;
    intros H; inversion H; subst; split; auto.
Qed.

Section History.
Variable lib : PyLib.
Variable w : World.
Variable self : QuizSolver.

Lemma chain_loop_history (fuel : nat) (email secret : json) (start_time : float) :
  forall (u : json) (t : trace) (acc : list json),
  exists newer more,
    fst (chain_loop lib w self fuel email secret start_time u (t, acc))
    = (newer ++ t, acc ++ more)
    /\ history u newer more.
Proof.
  induction fuel as [| fuel IH]; intros u t acc; rewrite chain_loop_eq.
  - exists (if truthy u then [ev_time] else []), [].
    rewrite app_nil_r. split.
    + destruct (truthy u); destruct (elapsed w start_time t <? max_time self)%float;
        reflexivity.
    + destruct (truthy u); repeat split; simpl; auto.
  - destruct (truthy u && (elapsed w start_time t <? max_time self)%float) eqn:Hgo.
    2: { exists (if truthy u then [ev_time] else []), []. rewrite app_nil_r.
         split; [destruct (truthy u); reflexivity |].
         destruct (truthy u); repeat split; simpl; auto. }
    destruct (step_events lib w email secret u (ev_time :: t))
      as [mid [Hmid [[e Hq] | [su [answer Hq]]]]];
      destruct (inner_calls_silent mid Hmid) as [Hr Hp]; rewrite Hq.
    + exists (mid ++ [ev_render u; ev_time]), []. rewrite app_nil_r, <- app_assoc.
      split; [reflexivity |].
      unfold history. rewrite rendered_app, posted_to_app, Hr, Hp. simpl.
      repeat split; auto.
    + set (t1 := ev_post su (submit_payload email secret u answer)
                   :: mid ++ ev_render u :: ev_time :: t).
      assert (Ht1 : t1 = (ev_post su (submit_payload email secret u answer) :: mid
                            ++ [ev_render u; ev_time]) ++ t).
      { unfold t1. simpl. rewrite <- app_assoc. reflexivity. }
      set (n1 := ev_post su (submit_payload email secret u answer) :: mid
                   ++ [ev_render u; ev_time]) in Ht1.
      assert (Hn1r : rendered n1 = [u]).
      { unfold n1. change (ev_post su ?p :: ?l) with ([ev_post su p] ++ l).
        rewrite !rendered_app, Hr. reflexivity. }
      assert (Hn1p : posted_to n1 = [su]).
      { unfold n1. change (ev_post su ?p :: ?l) with ([ev_post su p] ++ l).
        rewrite !posted_to_app, Hp. reflexivity. }
      destruct (session_post w (mid ++ ev_render u :: ev_time :: t) su
                             (submit_payload email secret u answer)) as [r | e].
      * destruct (decide r) as [[x |] | e'] eqn:Hd.
        -- destruct (decide_continue r x Hd) as [-> Hx].
           destruct (IH (url_of r) t1 (acc ++ [r])) as [n2 [more2 [Heq Hh]]].
           exists (n2 ++ n1), (r :: more2). rewrite Heq, Ht1, <- !app_assoc. simpl.
           split; [reflexivity |].
           destruct Hh as [H1 [H2 [H3 [H4 H5]]]].
           unfold history. rewrite rendered_app, posted_to_app, Hn1r, Hn1p.
           cbn [app List.length map firstn].
           repeat split; try lia.
           ++ f_equal. exact H1.
           ++ destruct more2 as [| r2 more2]; [constructor |].
              change (removelast (r :: r2 :: more2)) with (r :: removelast (r2 :: more2)).
              constructor; assumption.
        -- exists n1, [r]. rewrite Ht1. split; [reflexivity |].
           unfold history. rewrite Hn1r, Hn1p. simpl. repeat split; auto.
        -- exists n1, [r]. rewrite Ht1. split; [reflexivity |].
           unfold history. rewrite Hn1r, Hn1p. simpl. repeat split; auto.
      * exists n1, []. rewrite app_nil_r, Ht1. split; [reflexivity |].
        unfold history. rewrite Hn1r, Hn1p. simpl. repeat split; auto.
Qed.

Lemma solve_quiz_chain_history (fuel : nat) (email secret initial_url : json)
      (t t' : trace) (rs : list json) :
  solve_quiz_chain lib w self fuel email secret initial_url t = (t', Return (Some rs)) ->
  exists newer, t' = newer ++ ev_time :: t /\ history initial_url newer rs.
Proof.
  rewrite solve_quiz_chain_eq.
  destruct (chain_loop lib w self fuel email secret (time_time w t) initial_url
                       (ev_time :: t, [])) as [[t1 rs1] r] eqn:Hc.
  assert (Hh := chain_loop_history fuel email secret (time_time w t) initial_url
                                   (ev_time :: t) []).
  destruct Hh as [newer [more [Heq Hh]]].
  assert (E : (t1, rs1) = (newer ++ ev_time :: t, more)).
  { pose proof (f_equal fst Hc) as Hf. simpl in Hf. rewrite <- Hf. exact Heq. }
  inversion E; subst.
  destruct r as [[|] | e]; intros H; inversion H; subst.
  exists newer. split; [reflexivity | exact Hh].
Qed.

(** X1.  The chain follows the links: the URLs it renders, in order, are
    the initial URL and then the [url] of each result in turn, as far as
    the run went; it renders once per result and at most once more. *)
Theorem chain_renders_the_links (fuel : nat) (email secret initial_url : json)
        (t t' : trace) (rs : list json) :
  solve_quiz_chain lib w self fuel email secret initial_url t = (t', Return (Some rs)) ->
  exists newer,
    t' = newer ++ ev_time :: t
    /\ rendered newer
       = firstn (List.length (rendered newer)) (initial_url :: map url_of rs)
    /\ List.length rs <= List.length (rendered newer) <= S (List.length rs).
Proof.
  intros H. destruct (solve_quiz_chain_history _ _ _ _ _ _ _ H)
    as [newer [Ht [H1 [H2 [H3 [H4 _]]]]]].
  exists newer. repeat split; auto; lia.
Qed.

(** X2.  Every result in the list was answered by a submission of its
    own, and every submission was preceded by a rendering of its own:
    results, POSTs and renderings number in that order, and the renderings
    at most one more than the results. *)
Theorem chain_counts (fuel : nat) (email secret initial_url : json)
        (t t' : trace) (rs : list json) :
  solve_quiz_chain lib w self fuel email secret initial_url t = (t', Return (Some rs)) ->
  exists newer,
    t' = newer ++ ev_time :: t
    /\ List.length rs <= List.length (posted_to newer)
    /\ List.length (posted_to newer) <= List.length (rendered newer)
    /\ List.length (rendered newer) <= S (List.length rs).
Proof.
  intros H. destruct (solve_quiz_chain_history _ _ _ _ _ _ _ H)
    as [newer [Ht [_ [H2 [H3 [H4 _]]]]]].
  exists newer. auto.
Qed.

(** X3.  Every result but the last one carried a non-empty [url]: only the
    last submission result of a run can be without a follow-up. *)
Theorem chain_results_led_on (fuel : nat) (email secret initial_url : json)
        (t t' : trace) (rs : list json) :
  solve_quiz_chain lib w self fuel email secret initial_url t = (t', Return (Some rs)) ->
  Forall (fun r => truthy (url_of r) = true) (removelast rs).
Proof.
  intros H. destruct (solve_quiz_chain_history _ _ _ _ _ _ _ H)
    as [newer [_ [_ [_ [_ [_ H5]]]]]].
  exact H5.
Qed.
End History.

Lemma demo_run_eq :
  Cases.demo_run = (fst Cases.demo_run, Return (Some [grade (quiz "1"); grade (quiz "2"); grade (quiz "3")])).
Proof. vm_compute. reflexivity. Qed.

Lemma chain_renders_the_links_witness :
  exists newer,
    fst Cases.demo_run = newer ++ [ev_time]
    /\ rendered newer
       = firstn (List.length (rendered newer))
                (quiz "1" :: map url_of [grade (quiz "1"); grade (quiz "2"); grade (quiz "3")])
    /\ 3 <= List.length (rendered newer) <= 4.
Proof.
  exact (chain_renders_the_links lib chain_world solver 3 email secret (quiz "1") []
                                 (fst Cases.demo_run) _ demo_run_eq).
Defined.

Lemma chain_counts_witness :
  exists newer,
    fst Cases.demo_run = newer ++ [ev_time]
    /\ 3 <= List.length (posted_to newer)
    /\ List.length (posted_to newer) <= List.length (rendered newer)
    /\ List.length (rendered newer) <= 4.
Proof.
  exact (chain_counts lib chain_world solver 3 email secret (quiz "1") []
                      (fst Cases.demo_run) _ demo_run_eq).
Defined.

Lemma chain_results_led_on_witness :
  Forall (fun r => truthy (url_of r) = true) [grade (quiz "1"); grade (quiz "2")].
Proof.
  exact (chain_results_led_on lib chain_world solver 3 email secret (quiz "1") []
                              (fst Cases.demo_run) _ demo_run_eq).
Defined.

(** ** Requests to the models and downloads *)

Section ModelCalls.
Variable lib : PyLib.
Variable w : World.

Lemma parse_calls (page_content : page) :
  emits model_or_download (parse_quiz_with_llm lib w page_content).
Proof. unfold parse_quiz_with_llm. emits_tac. Qed.

Lemma fetch_files_calls (quiz_info : json) :
  emits model_or_download (fetch_files w quiz_info).
Proof.
  unfold fetch_files. emits_tac.
  apply (emits_weaken is_get); [| apply download_files_emits].
  intros [] H; try discriminate H; reflexivity.
Qed.

Lemma solve_with_llm_calls (quiz_info : json) (file_data : list file_payload) :
  emits model_or_download (solve_with_llm lib w quiz_info file_data).
Proof. unfold solve_with_llm. emits_tac. Qed.
End ModelCalls.

(** ** One step *)

Section StepMore.
Variable lib : PyLib.
Variable w : World.

(** X4.  The calls of a step, whatever happens in it: the rendering of
    its URL first, then calls that are neither renderings nor
    submissions, then at most one submission, which is the last call. *)
Theorem step_renders_once_posts_last (email secret url : json) (t : trace) :
  exists mid,
    forallb inner_call mid = true
    /\ (fst (solve_single_quiz lib w email secret url t) = mid ++ ev_render url :: t
        \/ exists submit_url payload,
             fst (solve_single_quiz lib w email secret url t)
             = ev_post submit_url payload :: mid ++ ev_render url :: t).
Proof.
  destruct (step_events lib w email secret url t)
    as [mid [Hmid [[e Hq] | [su [answer Hq]]]]];
    exists mid; (split; [exact Hmid |]); rewrite Hq; cbn [fst].
  - left. reflexivity.
  - right. exists su, (submit_payload email secret url answer). reflexivity.
Qed.

(** X5.  A step that returns a result went through every stage: the page
    was rendered, the parse, the downloads and the answer returned, with
    only model requests and downloads after the rendering; it then made
    one submission, its last call, to the [submit_url] of the description,
    whose payload carries the email, the secret, the quiz URL (not the
    submission URL) and the answer [solve_with_llm] returned; the result
    is what that POST decoded. *)
Theorem step_result_comes_from_post (email secret url : json) (t t' : trace) (r : json) :
  solve_single_quiz lib w email secret url t = (t', Return r) ->
  exists page_content quiz_info file_data answer submit_url t1 t2 t3,
    browse w t url = Return page_content
    /\ parse_quiz_with_llm lib w page_content (ev_render url :: t) = (t1, Return quiz_info)
    /\ fetch_files w quiz_info t1 = (t2, Return file_data)
    /\ solve_with_llm lib w quiz_info file_data t2 = (t3, Return answer)
    /\ dict_get quiz_info "submit_url" JNull = Return submit_url
    /\ t' = ev_post submit_url (submit_payload email secret url answer) :: t3
    /\ session_post w t3 submit_url (submit_payload email secret url answer) = Return r
    /\ exists mid, t3 = mid ++ ev_render url :: t /\ forallb model_or_download mid = true.
Proof.
  rewrite solve_single_quiz_eq.
  destruct (browse w t url) as [page_content | e] eqn:Hbrowse; [| discriminate].
  destruct (emits_at _ _ (ev_render url :: t) (parse_calls lib w page_content))
    as [n1 [H1 P1]].
  destruct (parse_quiz_with_llm lib w page_content (ev_render url :: t))
    as [t1 [quiz_info | e]] eqn:Hparse; [| discriminate].
  destruct (emits_at _ _ t1 (fetch_files_calls w quiz_info)) as [n2 [H2 P2]].
  destruct (fetch_files w quiz_info t1) as [t2 [file_data | e]] eqn:Hfetch;
    [| discriminate].
  destruct (emits_at _ _ t2 (solve_with_llm_calls lib w quiz_info file_data))
    as [n3 [H3 P3]].
  destruct (solve_with_llm lib w quiz_info file_data t2) as [t3 [answer | e]] eqn:Hsolve;
    [| discriminate].
  destruct (dict_get quiz_info "submit_url" JNull) as [submit_url | e] eqn:Hsu;
    [| discriminate].
  intros H. injection H as Ht' Hr. subst t'.
  exists page_content, quiz_info, file_data, answer, submit_url, t1, t2, t3.
  split; [reflexivity |]. split; [exact Hparse |]. split; [exact Hfetch |].
  split; [exact Hsolve |]. split; [exact Hsu |]. split; [reflexivity |].
  split; [exact Hr |].
  inversion H1; subst t1. inversion H2; subst t2. inversion H3; subst t3.
  exists (n3 ++ n2 ++ n1). rewrite !forallb_app, P1, P2, P3, <- !app_assoc.
  split; reflexivity.
Qed.

(** X6.  A quiz description that is not a JSON object ends the step with
    an [AttributeError] right after the parse: nothing is downloaded, asked
    or submitted. *)
Theorem non_object_description_aborts (email secret url : json) (t t1 : trace)
        (page_content : page) (quiz_info : json) :
  browse w t url = Return page_content ->
  parse_quiz_with_llm lib w page_content (ev_render url :: t) = (t1, Return quiz_info) ->
  (forall d, quiz_info <> JDict d) ->
  solve_single_quiz lib w email secret url t = (t1, Raise AttributeError).
Proof.
  intros Hb Hp Hnd. rewrite solve_single_quiz_eq, Hb, Hp.
  unfold fetch_files, bind, lift.
  destruct quiz_info; try reflexivity. exfalso. eapply Hnd. reflexivity.
Qed.
End StepMore.

Lemma step_result_comes_from_post_witness :
  exists page_content quiz_info file_data answer submit_url t1 t2 t3,
    browse chain_world [] (quiz "1") = Return page_content
    /\ parse_quiz_with_llm lib chain_world page_content [ev_render (quiz "1")]
       = (t1, Return quiz_info)
    /\ fetch_files chain_world quiz_info t1 = (t2, Return file_data)
    /\ solve_with_llm lib chain_world quiz_info file_data t2 = (t3, Return answer)
    /\ dict_get quiz_info "submit_url" JNull = Return submit_url
    /\ fst (solve_single_quiz lib chain_world email secret (quiz "1") [])
       = ev_post submit_url (submit_payload email secret (quiz "1") answer) :: t3
    /\ session_post chain_world t3 submit_url
                    (submit_payload email secret (quiz "1") answer)
       = Return (grade (quiz "1"))
    /\ exists mid, t3 = mid ++ [ev_render (quiz "1")]
                   /\ forallb model_or_download mid = true.
Proof.
  apply (step_result_comes_from_post lib chain_world email secret (quiz "1") []).
  vm_compute. reflexivity.
Defined.

Lemma non_object_description_aborts_witness :
  snd (solve_single_quiz lib (world "[1, 2]" still "" 200) email secret (quiz "1") [])
  = Raise AttributeError.
Proof.
  erewrite (non_object_description_aborts lib (world "[1, 2]" still "" 200)
              email secret (quiz "1") []); [reflexivity | reflexivity | lazy; reflexivity |].
  intros d H. discriminate H.
Defined.

(** ** The decision after a submission *)

Section Decision.
Variable lib : PyLib.
Variable w : World.
Variable self : QuizSolver.

(** X7.  Whether the chain goes on depends on the [url] of the result
    alone: the value of [correct] changes nothing, and a result that is
    not an object is an [AttributeError]. *)
Theorem decide_ignores_correct (result : json) :
  decide result
  = match result with
    | JDict _ =>
        Return (if truthy (url_of result) then Continue (url_of result) else Break)
    | _ => Raise AttributeError
    end.
Proof.
  unfold decide, url_of. destruct result as [| b | n | f | s | l | d]; try reflexivity.
  cbn [dict_get obind].
  destruct (truthy match assoc "correct" d with Some c => c | None => JNull end);
    cbn [obind];
    destruct (truthy match assoc "url" d with Some x => x | None => JNull end);
    reflexivity.
Qed.

(** X8.  A submission response that decodes to something else than an
    object is still appended to the results; the loop then ends. *)
Theorem non_object_result_is_kept (fuel : nat) (email secret : json)
        (start_time : float) (u : json) (t : trace) (results : list json)
        (t1 : trace) (r : json) :
  truthy u = true ->
  (elapsed w start_time t <? max_time self)%float = true ->
  solve_single_quiz lib w email secret u (ev_time :: t) = (t1, Return r) ->
  (forall d, r <> JDict d) ->
  chain_loop lib w self (S fuel) email secret start_time u (t, results)
  = ((t1, results ++ [r]), Return true).
Proof.
  intros Hu Ht Hq Hnd. rewrite chain_loop_eq, Hu, Ht. cbn [andb]. rewrite Hq.
  destruct r; try reflexivity. exfalso. eapply Hnd. reflexivity.
Qed.
End Decision.

Lemma non_object_result_is_kept_witness :
  snd (solve_quiz_chain lib Cases.list_world solver 3 email secret (quiz "1") [])
  = Return (Some [JList [JInt 1]]).
Proof.
  rewrite solve_quiz_chain_eq.
  erewrite (non_object_result_is_kept lib Cases.list_world solver 2 email secret
              _ (quiz "1") [ev_time] []);
    [reflexivity | reflexivity | reflexivity | lazy; reflexivity |].
  intros d H. discriminate H.
Defined.

(** ** Downloads *)

Section Downloads.
Variable lib : PyLib.
Variable w : World.

Lemma download_file_eq (url : json) (t : trace) :
  download_file w url t
  = (ev_get url :: t,
     match session_get w t url with
     | Return response =>
         if (status response =? 200)%Z then
           match read response with
           | Return body =>
               Return {| content := body;
                         content_type := match content_type_header response with
                                         | Some ct => ct
                                         | None => ""
                                         end |}
           | Raise e => Raise e
           end
         else Raise (DownloadFailed (status response))
     | Raise e => Raise e
     end).
Proof.
  unfold download_file. rewrite logged_eq. unfold bind at 1, call.
  destruct (session_get w t url) as [response | e]; [| reflexivity].
  destruct (status response =? 200)%Z; [| reflexivity].
  unfold bind, lift, ret. destruct (read response); reflexivity.
Qed.

Lemma download_files_cons (url : json) (rest : list json) (t : trace) :
  download_files w (url :: rest) t
  = match download_file w url t with
    | (t1, Return file_content) =>
        match download_files w rest t1 with
        | (t2, Return more) => (t2, Return (file_content :: more))
        | (t2, Raise e) => (t2, Raise e)
        end
    | (t1, Raise e) => (t1, Raise e)
    end.
Proof.
  cbn [download_files]. unfold bind at 1.
  destruct (download_file w url t) as [t1 [file_content | e]]; [| reflexivity].
  unfold bind, ret. destruct (download_files w rest t1) as [t2 [more | e]]; reflexivity.
Qed.

(** X9.  Downloads are fail-fast: when a URL fails after the ones before
    it were downloaded, the error is raised at once and the URLs after it
    are never requested. *)
Theorem download_files_stop_at_first_failure (before after : list json) (url : json)
        (t t1 t' : trace) (files : list file_payload) (e : exn) :
  download_files w before t = (t1, Return files) ->
  download_file w url t1 = (t', Raise e) ->
  download_files w (before ++ url :: after) t = (t', Raise e)
  /\ fetched t' = fetched t ++ before ++ [url].
Proof.
  revert t files. induction before as [| b before IH]; intros t files Hb Hu.
  - cbn [download_files ret] in Hb. inversion Hb; subst.
    cbn [app]. rewrite download_files_cons, Hu. split; [reflexivity |].
    rewrite download_file_eq in Hu. inversion Hu. reflexivity.
  - rewrite download_files_cons in Hb. cbn [app]. rewrite download_files_cons.
    rewrite download_file_eq in *.
    destruct (match session_get w t b with Return _ => _ | Raise e0 => Raise e0 end)
      as [file_content | e0]; [| discriminate Hb].
    destruct (download_files w before (ev_get b :: t)) as [t2 [more | e0]] eqn:Hrest;
      [| discriminate Hb].
    inversion Hb; subst.
    destruct (IH (ev_get b :: t) more Hrest Hu) as [IH1 IH2].
    rewrite IH1. split; [reflexivity |].
    rewrite IH2. unfold fetched. cbn [flat_map app rev]. rewrite <- !app_assoc. reflexivity.
Qed.

Lemma download_files_done (urls : list json) :
  forall (t t' : trace) (files : list file_payload),
    download_files w urls t = (t', Return files) ->
    t' = rev (map ev_get urls) ++ t /\ List.length files = List.length urls.
Proof.
  induction urls as [| url rest IH]; intros t t' files H.
  - cbn in H. inversion H. split; reflexivity.
  - rewrite download_files_cons, download_file_eq in H.
    destruct (match session_get w t url with Return _ => _ | Raise e0 => Raise e0 end)
      as [file_content | e0]; [| discriminate H].
    destruct (download_files w rest (ev_get url :: t)) as [t2 [more | e]] eqn:Hrest;
      [| discriminate H].
    inversion H; subst. destruct (IH _ _ _ Hrest) as [-> Hlen].
    cbn [map rev List.length]. rewrite <- app_assoc, Hlen. split; reflexivity.
Qed.

(** X10.  The files are requested one GET each, in the order of the
    list.  When the loop completes, every URL was requested and there are
    as many payloads as URLs; when it raises, the error is that of the
    first URL whose download fails: the URLs before it were downloaded,
    its own GET is the last call, and the URLs after it were not
    requested. *)
Theorem download_files_in_order (urls : list json) (t : trace) :
  (forall (t' : trace) (files : list file_payload),
      download_files w urls t = (t', Return files) ->
      t' = rev (map ev_get urls) ++ t /\ List.length files = List.length urls)
  /\
  (forall (t' : trace) (e : exn),
      download_files w urls t = (t', Raise e) ->
      exists before url after files,
        urls = before ++ url :: after
        /\ download_files w before t = (rev (map ev_get before) ++ t, Return files)
        /\ download_file w url (rev (map ev_get before) ++ t) = (t', Raise e)
        /\ t' = rev (map ev_get (before ++ [url])) ++ t).
Proof.
  split; [intros t' files; apply download_files_done |].
  revert t. induction urls as [| url rest IH]; intros t t' e H.
  - cbn in H. discriminate H.
  - rewrite download_files_cons in H.
    destruct (download_file w url t) as [t1 [file_content | e0]] eqn:Hurl.
    + assert (Ht1 : t1 = ev_get url :: t).
      { rewrite download_file_eq in Hurl. injection Hurl as Ht1 _. symmetry. exact Ht1. }
      destruct (download_files w rest t1) as [t2 [more | e1]] eqn:Hrest;
        [discriminate H |].
      injection H as Ht2 He1. subst t2 e1 t1.
      destruct (IH _ _ _ Hrest) as [before [u [after [files [-> [Hb [Hu Ht']]]]]]].
      exists (url :: before), u, after, (file_content :: files).
      cbn [app map rev]. rewrite <- !app_assoc. cbn [app].
      split; [reflexivity |].
      split; [rewrite download_files_cons, Hurl, Hb; reflexivity |].
      split; [exact Hu |].
      rewrite Ht', map_app, rev_app_distr, <- !app_assoc. reflexivity.
    + injection H as Ht1 He0. subst t1 e0.
      exists [], url, rest, []. cbn [app map rev].
      split; [reflexivity |]. split; [reflexivity |]. split; [exact Hurl |].
      rewrite download_file_eq in Hurl. inversion Hurl. reflexivity.
Qed.

(** X11.  Without file URLs nothing is downloaded: a description whose
    [file_urls] is missing, [None] or empty gives the empty file list; and
    a [file_urls] that cannot be iterated (a number, [true]) is a
    [TypeError] before any request. *)
Theorem fetch_files_without_urls (d : list (string * json)) (t : trace) :
  (truthy match assoc "file_urls" d with Some v => v | None => JNull end = false ->
   fetch_files w (JDict d) t = (t, Return []))
  /\
  (forall v, assoc "file_urls" d = Some v -> truthy v = true ->
             py_iter v = Raise TypeError ->
             fetch_files w (JDict d) t = (t, Raise TypeError)).
Proof.
  split.
  - intros H. unfold fetch_files, bind, lift, dict_get. rewrite H. reflexivity.
  - intros v Hv Ht Hi. unfold fetch_files, bind, lift, dict_get, getitem.
    rewrite Hv, Ht. cbn [obind]. rewrite Hi. reflexivity.
Qed.

(** X12.  A [file_urls] that is a non-empty string, not a list, is
    iterated character by character: the URLs handed to [download_file]
    are its one-character strings, in order.  The first request is a GET
    of the first character alone, and when that download fails the step
    raises with no other request made. *)
Theorem fetch_files_splits_a_string (d : list (string * json)) (c : ascii) (rest : string)
        (t : trace) :
  assoc "file_urls" d = Some (JStr (String c rest)) ->
  fetch_files w (JDict d) t = download_files w (chars (String c rest)) t
  /\ chars (String c rest)
     = map (fun x => JStr (String x EmptyString)) (list_ascii_of_string (String c rest))
  /\ (exists newer,
         fst (fetch_files w (JDict d) t)
         = newer ++ ev_get (JStr (String c EmptyString)) :: t)
  /\ (forall (t' : trace) (e : exn),
         download_file w (JStr (String c EmptyString)) t = (t', Raise e) ->
         fetch_files w (JDict d) t
         = (ev_get (JStr (String c EmptyString)) :: t, Raise e)).
Proof.
  intros Hs.
  assert (Heq : fetch_files w (JDict d) t = download_files w (chars (String c rest)) t).
  { unfold fetch_files, bind, lift, dict_get, getitem. rewrite Hs. reflexivity. }
  split; [exact Heq |]. split; [| split].
  - generalize (String c rest). intros s.
    induction s as [| x s IH]; simpl; [| rewrite IH]; reflexivity.
  - rewrite Heq. cbn [chars]. rewrite download_files_cons, download_file_eq.
    destruct (match session_get w t (JStr (String c EmptyString)) with
              | Return _ => _ | Raise e0 => Raise e0 end) as [file_content | e0].
    + destruct (download_files_extends w (chars rest)
                  (ev_get (JStr (String c EmptyString)) :: t)) as [newer Hn].
      exists newer.
      destruct (download_files w (chars rest) (ev_get (JStr (String c EmptyString)) :: t))
        as [t2 [more | e]]; exact Hn.
    + exists []. reflexivity.
  - intros t' e Hfail. rewrite Heq. cbn [chars]. rewrite download_files_cons, Hfail.
    rewrite download_file_eq in Hfail. inversion Hfail. reflexivity.
Qed.
End Downloads.

Lemma download_files_stop_at_first_failure_witness :
  snd (download_files Cases.flaky_world
         [JStr "http://files/a.csv"; JStr "http://files/missing.csv"; JStr "http://files/c.csv"] [])
  = Raise (DownloadFailed 404)
  /\ fetched (fst (download_files Cases.flaky_world
         [JStr "http://files/a.csv"; JStr "http://files/missing.csv"; JStr "http://files/c.csv"] []))
     = [JStr "http://files/a.csv"; JStr "http://files/missing.csv"].
Proof.
  destruct (download_files_stop_at_first_failure Cases.flaky_world
              [JStr "http://files/a.csv"] [JStr "http://files/c.csv"]
              (JStr "http://files/missing.csv") [] _ _ _ _ eq_refl eq_refl) as [H1 H2].
  split.
  - exact (f_equal snd H1).
  - exact H2.
Defined.

Lemma download_files_in_order_witness :
  download_files chain_world [JStr "http://files/a.csv"; JStr "http://files/b.csv"] []
  = ([ev_get (JStr "http://files/b.csv"); ev_get (JStr "http://files/a.csv")],
     snd (download_files chain_world
            [JStr "http://files/a.csv"; JStr "http://files/b.csv"] []))
  /\ exists before url after files,
       [JStr "http://files/a.csv"; JStr "http://files/missing.csv"; JStr "http://files/c.csv"]
       = before ++ url :: after
       /\ download_files Cases.flaky_world before []
          = (rev (map ev_get before) ++ [], Return files)
       /\ download_file Cases.flaky_world url (rev (map ev_get before) ++ [])
          = ([ev_get (JStr "http://files/missing.csv"); ev_get (JStr "http://files/a.csv")],
             Raise (DownloadFailed 404))
       /\ [ev_get (JStr "http://files/missing.csv"); ev_get (JStr "http://files/a.csv")]
          = rev (map ev_get (before ++ [url])) ++ [].
Proof.
  split.
  - destruct (download_files chain_world
                [JStr "http://files/a.csv"; JStr "http://files/b.csv"] [])
      as [t' [files | e]] eqn:H; [| discriminate H].
    destruct (proj1 (download_files_in_order chain_world
                       [JStr "http://files/a.csv"; JStr "http://files/b.csv"] [])
                    t' files H) as [-> _].
    reflexivity.
  - apply (proj2 (download_files_in_order Cases.flaky_world
                    [JStr "http://files/a.csv"; JStr "http://files/missing.csv";
                     JStr "http://files/c.csv"] [])).
    reflexivity.
Defined.

Lemma fetch_files_without_urls_witness :
  fetch_files chain_world (JDict [("question", JStr "q"); ("file_urls", JList [])]) []
  = ([], Return [])
  /\ fetch_files chain_world (JDict [("question", JStr "q"); ("file_urls", JInt 3)]) []
     = ([], Raise TypeError).
Proof.
  split.
  - exact (proj1 (fetch_files_without_urls chain_world
                    [("question", JStr "q"); ("file_urls", JList [])] []) eq_refl).
  - exact (proj2 (fetch_files_without_urls chain_world
                    [("question", JStr "q"); ("file_urls", JInt 3)] [])
                 (JInt 3) eq_refl eq_refl eq_refl).
Defined.

Lemma fetch_files_splits_a_string_witness :
  fetch_files Cases.strict_world (JDict [("file_urls", JStr "ab")]) []
  = ([ev_get (JStr "a")], Raise (ExternalError "a")).
Proof.
  apply (proj2 (proj2 (proj2 (fetch_files_splits_a_string Cases.strict_world
                                [("file_urls", JStr "ab")] "a" "b" [] eq_refl)))
               [ev_get (JStr "a")] (ExternalError "a")).
  reflexivity.
Defined.

(** ** The answer request *)

Section Answering.
Variable lib : PyLib.
Variable w : World.

Lemma attach_files_same (f1 f2 : file_payload) (before after : list file_payload) :
  (forall user_content, attach_file lib f1 user_content = attach_file lib f2 user_content) ->
  forall user_content,
    attach_files lib (before ++ f1 :: after) user_content
    = attach_files lib (before ++ f2 :: after) user_content.
Proof.
  intros Hsame. induction before as [| f before IH]; intros user_content; simpl.
  - rewrite Hsame. reflexivity.
  - destruct (attach_file lib f user_content); simpl; [apply IH | reflexivity].
Qed.

(** X13.  The content of a PDF never reaches the model: a file whose
    content type contains "pdf" (also one that contains "image" as well)
    adds a fixed placeholder text, so the request, and the whole answering
    step, are the same whatever the bytes of the file. *)
Theorem pdf_content_is_never_sent (quiz_info : json) (before after : list file_payload)
        (file_info : file_payload) (body : bytes) :
  str_in "pdf" (lower (content_type file_info)) = true ->
  (forall user_content,
      attach_file lib file_info user_content
      = Return (user_content ++ [text_part "[PDF file content - analyze the data within]"]))
  /\
  answer_request lib quiz_info
    (before ++ {| content := body; content_type := content_type file_info |} :: after)
  = answer_request lib quiz_info (before ++ file_info :: after)
  /\
  (forall t,
      solve_with_llm lib w quiz_info
        (before ++ {| content := body; content_type := content_type file_info |} :: after) t
      = solve_with_llm lib w quiz_info (before ++ file_info :: after) t).
Proof.
  intros Hpdf.
  assert (Hpart : forall (f : file_payload) user_content,
             str_in "pdf" (lower (content_type f)) = true ->
             attach_file lib f user_content
             = Return (user_content
                         ++ [text_part "[PDF file content - analyze the data within]"])).
  { intros f user_content H. unfold attach_file. rewrite H. reflexivity. }
  assert (Hreq : answer_request lib quiz_info
                   (before ++ {| content := body; content_type := content_type file_info |}
                           :: after)
                 = answer_request lib quiz_info (before ++ file_info :: after)).
  { unfold answer_request.
    destruct (getitem quiz_info "question") as [question | e]; simpl; [| reflexivity].
    destruct (dict_get quiz_info "answer_format" (JStr "appropriate format")) as [fmt | e];
      simpl; [| reflexivity].
    rewrite !attach_if_any.
    rewrite (attach_files_same {| content := body; content_type := content_type file_info |}
                               file_info before after); [reflexivity |].
    intros user_content. rewrite !Hpart; [reflexivity | exact Hpdf | exact Hpdf]. }
  split; [intros user_content; apply Hpart; exact Hpdf |].
  split; [exact Hreq |].
  intros t. unfold solve_with_llm. rewrite !logged_eq, Hreq. reflexivity.
Qed.

Lemma attach_file_parts (file_info : file_payload) (user_content out : list content_part) :
  attach_file lib file_info user_content = Return out ->
  exists parts,
    out = user_content ++ parts
    /\ List.length parts = if recognised file_info then 1 else 0.
Proof.
  unfold attach_file, recognised.
  destruct (str_in "pdf" (lower (content_type file_info))); cbn [orb].
  { intros H. inversion H. eexists. split; reflexivity. }
  destruct (str_in "image" (lower (content_type file_info))); cbn [orb].
  { intros H. inversion H. eexists. split; reflexivity. }
  destruct (str_in "text" (lower (content_type file_info))); cbn [orb].
  { destruct (utf8_decode lib (content file_info)); cbn [obind]; intros H; inversion H.
    eexists. split; reflexivity. }
  destruct (str_in "csv" (lower (content_type file_info))).
  { destruct (utf8_decode lib (content file_info)); cbn [obind]; intros H; inversion H.
    eexists. split; reflexivity. }
  intros H. inversion H. exists []. rewrite app_nil_r. split; reflexivity.
Qed.

Lemma attach_files_parts (file_data : list file_payload) :
  forall user_content out,
    attach_files lib file_data user_content = Return out ->
    exists parts,
      out = user_content ++ parts
      /\ List.length parts = List.length (filter recognised file_data).
Proof.
  induction file_data as [| f rest IH]; intros user_content out H.
  - inversion H. exists []. rewrite app_nil_r. split; reflexivity.
  - cbn [attach_files] in H.
    destruct (attach_file lib f user_content) as [uc1 |] eqn:Hf; [| discriminate H].
    cbn [obind] in H.
    destruct (attach_file_parts f user_content uc1 Hf) as [p1 [-> L1]].
    destruct (IH _ _ H) as [p2 [-> L2]].
    exists (p1 ++ p2). rewrite app_assoc. split; [reflexivity |].
    rewrite length_app, L1, L2. cbn [filter].
    destruct (recognised f); simpl; lia.
Qed.

(** X14.  The request to the answering model, when it can be built: model
    gpt-4o, at most 2000 tokens, no response format, the fixed system
    message, and one user message whose first part is the text made of
    the [question] of the description and its [answer_format]
    ("appropriate format" without one), followed by exactly one part for
    each downloaded file of a recognised content type. *)
Theorem answer_request_parts (quiz_info : json) (file_data : list file_payload)
        (req : chat_request) :
  answer_request lib quiz_info file_data = Return req ->
  exists question fmt parts,
    getitem quiz_info "question" = Return question
    /\ dict_get quiz_info "answer_format" (JStr "appropriate format") = Return fmt
    /\ req
       = {| model := "gpt-4o";
            messages :=
              [ {| role := "system";
                   msg_content := content_text "You are a data analysis expert. Answer questions about data accurately and concisely." |};
                {| role := "user";
                   msg_content :=
                     content_parts
                       (text_part ("Question: " ++ py_str lib question ++ newline ++ newline
                                   ++ "Provide only the answer in the format: "
                                   ++ py_str lib fmt)
                          :: parts) |} ];
            response_format := None;
            max_tokens := Some 2000%Z |}
    /\ List.length parts = List.length (filter recognised file_data).
Proof.
  unfold answer_request.
  destruct (getitem quiz_info "question") as [question |]; [| discriminate].
  cbn [obind].
  destruct (dict_get quiz_info "answer_format" (JStr "appropriate format")) as [fmt |];
    [| discriminate].
  cbn [obind]. rewrite attach_if_any.
  destruct (attach_files lib file_data _) as [out |] eqn:Hout; [| discriminate].
  cbn [obind]. intros H. inversion H; subst.
  destruct (attach_files_parts _ _ _ Hout) as [parts [-> L]].
  exists question, fmt, parts.
  split; [reflexivity |]. split; [reflexivity |]. split; [reflexivity | exact L].
Qed.

(** X15.  When the request cannot be built the model is not called: a
    description without [question] raises [KeyError] with no call made,
    and so does any other failure while building (a description that is no
    object, a text file that is not UTF-8). *)
Theorem no_request_when_building_fails (quiz_info : json) (file_data : list file_payload)
        (t : trace) :
  (forall e, answer_request lib quiz_info file_data = Raise e ->
             solve_with_llm lib w quiz_info file_data t = (t, Raise e))
  /\
  (forall d, quiz_info = JDict d -> assoc "question" d = None ->
             solve_with_llm lib w quiz_info file_data t = (t, Raise (KeyError "question"))).
Proof.
  split.
  - intros e H. unfold solve_with_llm. rewrite logged_eq. unfold bind, lift.
    rewrite H. reflexivity.
  - intros d -> Hq. unfold solve_with_llm. rewrite logged_eq. unfold bind, lift.
    unfold answer_request, getitem. rewrite Hq. reflexivity.
Qed.

Lemma lstrip_clean (s : string) : starts_with is_space (lstrip s) = false.
Proof.
  induction s as [| c s IH]; [reflexivity |]. cbn [lstrip].
  destruct (is_space c) eqn:Hc; [exact IH |]. cbn [starts_with]. exact Hc.
Qed.

Lemma rstrip_clean (s : string) : ends_with is_space (rstrip s) = false.
Proof.
  induction s as [| c s IH]; [reflexivity |]. cbn [rstrip].
  destruct (is_space c) eqn:Hc; cbn [andb].
  - destruct (rstrip s) as [| c' r] eqn:Hr; [reflexivity |].
    cbn [String.eqb]. cbn [ends_with]. exact IH.
  - destruct (rstrip s) as [| c' r] eqn:Hr; cbn [ends_with]; [exact Hc | exact IH].
Qed.

Lemma rstrip_keeps_start (s : string) :
  starts_with is_space s = false -> starts_with is_space (rstrip s) = false.
Proof.
  destruct s as [| c s]; [reflexivity |]. cbn [starts_with rstrip]. intros Hc.
  rewrite Hc. cbn [andb starts_with]. exact Hc.
Qed.

(** X16.  With no answer format (missing, [None] or empty) the answer is
    the model's reply with the white space at both ends removed, as a
    string; it never starts or ends with white space. *)
Theorem answer_is_stripped (quiz_info : json) (file_data : list file_payload)
        (t : trace) (req : chat_request) (s : string) (answer_format : json) :
  answer_request lib quiz_info file_data = Return req ->
  chat_create w t req = Return (Some s) ->
  dict_get quiz_info "answer_format" JNull = Return answer_format ->
  truthy answer_format = false ->
  solve_with_llm lib w quiz_info file_data t = (ev_chat req :: t, Return (JStr (strip s)))
  /\ starts_with is_space (strip s) = false
  /\ ends_with is_space (strip s) = false.
Proof.
  intros Hreq Hchat Hfmt Hfalse. split; [| split].
  - unfold solve_with_llm. rewrite logged_eq. unfold bind at 1, lift at 1. rewrite Hreq.
    unfold bind at 1, call. rewrite Hchat. unfold bind, lift. rewrite Hfmt.
    unfold format_answer. rewrite Hfalse. reflexivity.
  - unfold strip. apply rstrip_keeps_start, lstrip_clean.
  - unfold strip. apply rstrip_clean.
Qed.

(** X17.  A reply without content ([None]) is an error after the one call
    made: a [TypeError] in the parse, an [AttributeError] in the answer. *)
Theorem reply_without_content (page_content : page) (quiz_info : json)
        (file_data : list file_payload) (req : chat_request) (t : trace) :
  (chat_create w t (parse_request page_content) = Return None ->
   parse_quiz_with_llm lib w page_content t
   = (ev_chat (parse_request page_content) :: t, Raise TypeError))
  /\
  (answer_request lib quiz_info file_data = Return req ->
   chat_create w t req = Return None ->
   solve_with_llm lib w quiz_info file_data t = (ev_chat req :: t, Raise AttributeError)).
Proof.
  split.
  - intros H. unfold parse_quiz_with_llm. rewrite logged_eq. unfold bind, call.
    rewrite H. reflexivity.
  - intros Hreq H. unfold solve_with_llm. rewrite logged_eq.
    unfold bind at 1, lift at 1. rewrite Hreq. unfold bind, call. rewrite H. reflexivity.
Qed.
End Answering.

Lemma pdf_content_is_never_sent_witness :
  answer_request lib (quiz_value true) [csv_file; Cases.pdf_file [Byte.x25; Byte.x50]]
  = answer_request lib (quiz_value true) [csv_file; Cases.pdf_file []].
Proof.
  exact (proj1 (proj2 (pdf_content_is_never_sent lib chain_world (quiz_value true)
                         [csv_file] [] (Cases.pdf_file []) [Byte.x25; Byte.x50] eq_refl))).
Defined.

Lemma answer_request_parts_witness :
  exists parts,
    answer_request lib (quiz_value true) [csv_file; binary_file; Cases.pdf_file []]
    = Return
        {| model := "gpt-4o";
           messages :=
             [ {| role := "system";
                  msg_content := content_text "You are a data analysis expert. Answer questions about data accurately and concisely." |};
               {| role := "user";
                  msg_content :=
                    content_parts
                      (text_part "Question: What is 6 times 7?

Provide only the answer in the format: number"
                         :: parts) |} ];
           response_format := None;
           max_tokens := Some 2000%Z |}
    /\ List.length parts = 2.
Proof.
  destruct (answer_request lib (quiz_value true) [csv_file; binary_file; Cases.pdf_file []])
    as [req |] eqn:H; [| discriminate H].
  destruct (answer_request_parts lib _ _ req H) as [q [f [parts [Hq [Hf [Hreq L]]]]]].
  inversion Hq; subst q. inversion Hf; subst f.
  exists parts. split; [rewrite Hreq; reflexivity | exact L].
Defined.

Lemma no_request_when_building_fails_witness :
  solve_with_llm lib chain_world (JDict [("answer_format", JStr "number")]) [csv_file] []
  = ([], Raise (KeyError "question")).
Proof.
  exact (proj2 (no_request_when_building_fails lib chain_world
                  (JDict [("answer_format", JStr "number")]) [csv_file] [])
               [("answer_format", JStr "number")] eq_refl eq_refl).
Defined.

Lemma answer_is_stripped_witness :
  snd (solve_with_llm lib chain_world (JDict [("question", JStr "What is 6 times 7?")]) [] [])
  = Return (JStr "The answer is 42.").
Proof.
  edestruct (answer_is_stripped lib chain_world
               (JDict [("question", JStr "What is 6 times 7?")]) [] []) as [H _];
    [reflexivity | reflexivity | reflexivity | reflexivity |].
  rewrite H. reflexivity.
Defined.

Lemma reply_without_content_witness :
  parse_quiz_with_llm lib Cases.mute_world page1 []
  = ([ev_chat (parse_request page1)], Raise TypeError)
  /\ snd (solve_with_llm lib Cases.mute_world (quiz_value true) [] [])
     = Raise AttributeError.
Proof.
  split.
  - exact (proj1 (reply_without_content lib Cases.mute_world page1 JNull []
                    {| model := ""; messages := []; response_format := None;
                       max_tokens := None |} []) eq_refl).
  - destruct (answer_request lib (quiz_value true) []) as [req |] eqn:Hreq;
      [| discriminate Hreq].
    rewrite (proj2 (reply_without_content lib Cases.mute_world page1 (quiz_value true) []
                      req []) Hreq eq_refl).
    reflexivity.
Defined.

(** ** Formats *)

Section Formats.
Variable lib : PyLib.

(** X18.  For a format that contains "boolean" or "bool" and neither
    "number" nor "int": the answer is [True] when the text contains "true"
    or "yes" (whatever the case), these being looked for first; otherwise
    [False] when it contains "false" or "no"; otherwise the text itself. *)
Theorem format_answer_boolean (answer_text fmt : string) :
  str_in "number" (lower fmt) || str_in "int" (lower fmt) = false ->
  str_in "boolean" (lower fmt) || str_in "bool" (lower fmt) = true ->
  format_answer lib answer_text (JStr fmt)
  = Return (if str_in "true" (lower answer_text) || str_in "yes" (lower answer_text)
            then JBool true
            else if str_in "false" (lower answer_text) || str_in "no" (lower answer_text)
                 then JBool false
                 else JStr answer_text).
Proof.
  intros Hnum Hbool.
  destruct fmt as [| c fmt']; [discriminate Hbool |].
  unfold format_answer. cbn [truthy String.eqb negb].
  unfold format_attempt. rewrite Hnum, Hbool.
  destruct (str_in "true" (lower answer_text) || str_in "yes" (lower answer_text));
    [reflexivity |].
  destruct (str_in "false" (lower answer_text) || str_in "no" (lower answer_text));
    reflexivity.
Qed.

(** X19.  The text comes back unchanged, as a string, when there is no
    format ([None], the empty string, any falsy value) and when the format
    names none of "number", "int", "boolean", "bool", "json", "object". *)
Theorem format_answer_verbatim (answer_text : string) (answer_format : json) :
  (truthy answer_format = false
   \/ exists fmt,
        answer_format = JStr fmt
        /\ str_in "number" (lower fmt) || str_in "int" (lower fmt) = false
        /\ str_in "boolean" (lower fmt) || str_in "bool" (lower fmt) = false
        /\ str_in "json" (lower fmt) || str_in "object" (lower fmt) = false) ->
  format_answer lib answer_text answer_format = Return (JStr answer_text).
Proof.
  intros [H | [fmt [-> [Hnum [Hbool Hjson]]]]]; unfold format_answer.
  - rewrite H. reflexivity.
  - destruct (truthy (JStr fmt)); [| reflexivity]. cbn [negb].
    unfold format_attempt. rewrite Hnum, Hbool, Hjson. reflexivity.
Qed.

(** X20.  [format_answer] raises in one case only: a format that is
    neither falsy nor a string (a list, a number, an object, [true]) is an
    [AttributeError]; with a string or no format it always returns. *)
Theorem format_answer_raises_only_for_non_string (answer_text : string)
        (answer_format : json) :
  match answer_format with
  | JStr _ => exists v, format_answer lib answer_text answer_format = Return v
  | _ =>
      format_answer lib answer_text answer_format
      = if truthy answer_format then Raise AttributeError else Return (JStr answer_text)
  end.
Proof.
  destruct answer_format as [| b | n | f | s | l | d]; unfold format_answer;
    try (destruct (truthy _); reflexivity).
  destruct (truthy (JStr s)); cbn [negb]; [| eauto].
  destruct (format_attempt lib answer_text (lower s)) as [[v |] | e]; eauto.
Qed.

(** X21.  With a format that contains "number" or "int" the answer is an
    integer or the text itself, never a boolean or a decoded structure,
    whatever else the format names. *)
Theorem number_format_gives_integer_or_text (answer_text fmt : string) :
  str_in "number" (lower fmt) || str_in "int" (lower fmt) = true ->
  format_answer lib answer_text (JStr fmt) = Return (JStr answer_text)
  \/ exists n, format_answer lib answer_text (JStr fmt) = Return (JInt n).
Proof.
  intros Hnum. unfold format_answer.
  destruct (truthy (JStr fmt)); cbn [negb]; [| left; reflexivity].
  unfold format_attempt. rewrite Hnum.
  destruct (re_findall number_pattern answer_text) as [| tok more]; [left; reflexivity |].
  destruct (py_float tok) as [f | e]; cbn [obind]; [| left; reflexivity].
  destruct (py_int f) as [n | e]; cbn [obind]; [right; exists n |left]; reflexivity.
Qed.
End Formats.

Lemma format_answer_boolean_witness :
  format_answer lib "Yes, that is true." (JStr "boolean") = Return (JBool true)
  /\ format_answer lib "No, that is not true." (JStr "Boolean") = Return (JBool true)
  /\ format_answer lib "unknown" (JStr "bool") = Return (JBool false).
Proof.
  split; [| split].
  - exact (format_answer_boolean lib "Yes, that is true." "boolean" eq_refl eq_refl).
  - exact (format_answer_boolean lib "No, that is not true." "Boolean" eq_refl eq_refl).
  - exact (format_answer_boolean lib "unknown" "bool" eq_refl eq_refl).
Defined.

Lemma format_answer_verbatim_witness :
  format_answer lib " 42 " JNull = Return (JStr " 42 ")
  /\ format_answer lib "QUJD" (JStr "base64 string") = Return (JStr "QUJD").
Proof.
  split.
  - exact (format_answer_verbatim lib " 42 " JNull (or_introl eq_refl)).
  - apply (format_answer_verbatim lib "QUJD" (JStr "base64 string")).
    right. exists "base64 string"%string. repeat split.
Defined.

Lemma number_format_gives_integer_or_text_witness :
  format_answer lib "true" (JStr "number or boolean") = Return (JStr "true")
  \/ exists n, format_answer lib "true" (JStr "number or boolean") = Return (JInt n).
Proof.
  exact (number_format_gives_integer_or_text lib "true" "number or boolean" eq_refl).
Defined.

(** ** The front end *)

Section FrontEnd.
Variable lib : PyLib.
Variable w : World.
Variable SECRET : string.
Variable OPENAI_API_KEY : string.
Variable exn_str : exn -> string.

Lemma handle_quiz_eq (fuel : nat) (get_json : outcome json) (t : trace) :
  handle_quiz lib w SECRET OPENAI_API_KEY exn_str fuel get_json t =
  match get_json with
  | Raise e => (t, Return (Some (error_reply (exn_str e) 500)))
  | Return data =>
      if negb (truthy data) then (t, Return (Some (error_reply "Invalid JSON" 400)))
      else
        match data with
        | JDict d =>
            if negb (truthy (field d "email") && truthy (field d "secret")
                     && truthy (field d "url")) then
              (t, Return (Some (error_reply "Missing required fields: email, secret, url"
                                            400)))
            else if ne_str (field d "secret") SECRET then
              (t, Return (Some (error_reply "Invalid secret" 403)))
            else
              match solve_quiz_chain lib w (QuizSolver_init OPENAI_API_KEY) fuel
                                     (field d "email") (field d "secret") (field d "url") t
              with
              | (t', Return (Some _)) => (t', Return (Some (success_reply (field d "url"))))
              | (t', Return None) => (t', Return None)
              | (t', Raise e) => (t', Return (Some (error_reply (exn_str e) 500)))
              end
        | _ => (t, Return (Some (error_reply (exn_str AttributeError) 500)))
        end
  end.
Proof.
  unfold handle_quiz, try_except, bind at 1, lift at 1.
  destruct get_json as [data | e]; [| reflexivity].
  destruct (truthy data) eqn:Htruthy; cbn [negb]; [| reflexivity].
  destruct data as [| b | n | f | s | l | d]; try reflexivity.
  unfold bind, lift, dict_get, field. cbn [forallb].
  rewrite andb_true_r, andb_assoc.
  destruct (truthy _ && truthy _ && truthy _); cbn [negb]; [| reflexivity].
  destruct (ne_str _ SECRET); [reflexivity |].
  unfold quiz_solver.
  destruct (solve_quiz_chain lib w (QuizSolver_init OPENAI_API_KEY) fuel _ _ _ t)
    as [t' [[rs |] | e]]; reflexivity.
Qed.

(** X22.  A request is turned away before the solver is touched, with no
    call made: an empty or missing body is a 400, a body with a missing
    or empty [email], [secret] or [url] is a 400, checked before the
    secret, and a body whose secret is not the configured one is a 403. *)
Theorem handle_quiz_rejects (fuel : nat) (data : json) (t : trace) :
  (truthy data = false ->
   handle_quiz lib w SECRET OPENAI_API_KEY exn_str fuel (Return data) t
   = (t, Return (Some (error_reply "Invalid JSON" 400))))
  /\
  (forall d, data = JDict d -> d <> [] ->
     truthy (field d "email") && truthy (field d "secret") && truthy (field d "url") = false ->
     handle_quiz lib w SECRET OPENAI_API_KEY exn_str fuel (Return data) t
     = (t, Return (Some (error_reply "Missing required fields: email, secret, url" 400))))
  /\
  (forall d, data = JDict d ->
     truthy (field d "email") && truthy (field d "secret") && truthy (field d "url") = true ->
     field d "secret" <> JStr SECRET ->
     handle_quiz lib w SECRET OPENAI_API_KEY exn_str fuel (Return data) t
     = (t, Return (Some (error_reply "Invalid secret" 403)))).
Proof.
  split; [| split].
  - intros H. rewrite handle_quiz_eq, H. reflexivity.
  - intros d -> Hd H. rewrite handle_quiz_eq.
    destruct d; [congruence |]. cbn [truthy negb]. rewrite H. reflexivity.
  - intros d -> H Hs. rewrite handle_quiz_eq.
    assert (Hd : truthy (JDict d) = true).
    { destruct d; [discriminate H | reflexivity]. }
    rewrite Hd, H. cbn [negb].
    assert (Hne : ne_str (field d "secret") SECRET = true).
    { unfold ne_str. destruct (field d "secret") as [| | | | s | |]; try reflexivity.
      destruct (String.eqb_spec s SECRET) as [-> |]; [congruence | reflexivity]. }
    rewrite Hne. reflexivity.
Qed.

(** X23.  A request with the three fields and the right secret runs the
    chain and is answered 200 with the same body whatever the chain
    achieved, an empty result list included: the reply carries the URL of
    the request and nothing of the results. *)
Theorem handle_quiz_always_succeeds (fuel : nat) (d : list (string * json))
        (t t' : trace) (results : list json) :
  truthy (field d "email") && truthy (field d "secret") && truthy (field d "url") = true ->
  field d "secret" = JStr SECRET ->
  solve_quiz_chain lib w (QuizSolver_init OPENAI_API_KEY) fuel
                   (field d "email") (field d "secret") (field d "url") t
  = (t', Return (Some results)) ->
  handle_quiz lib w SECRET OPENAI_API_KEY exn_str fuel (Return (JDict d)) t
  = (t', Return (Some (success_reply (field d "url")))).
Proof.
  intros H Hs Hrun. rewrite handle_quiz_eq.
  assert (Hd : truthy (JDict d) = true).
  { destruct d; [discriminate H | reflexivity]. }
  rewrite Hd, H. cbn [negb]. rewrite Hrun.
  rewrite Hs. unfold ne_str. rewrite String.eqb_refl. reflexivity.
Qed.

(** X24.  [handle_quiz] never raises, and its status is 200, 400, 403 or
    500; 500 is the status when [request.get_json()] raises and when the
    decoded body is a non-empty value that is not an object. *)
Theorem handle_quiz_statuses (fuel : nat) (get_json : outcome json) (t : trace) :
  (exists t' r,
      handle_quiz lib w SECRET OPENAI_API_KEY exn_str fuel get_json t = (t', Return r)
      /\ forall rep, r = Some rep ->
                     In (reply_status rep) [200; 400; 403; 500]%Z)
  /\
  (forall e, get_json = Raise e ->
             handle_quiz lib w SECRET OPENAI_API_KEY exn_str fuel get_json t
             = (t, Return (Some (error_reply (exn_str e) 500))))
  /\
  (forall data, get_json = Return data -> truthy data = true ->
                (forall d, data <> JDict d) ->
                handle_quiz lib w SECRET OPENAI_API_KEY exn_str fuel get_json t
                = (t, Return (Some (error_reply (exn_str AttributeError) 500)))).
Proof.
  split; [| split].
  - rewrite handle_quiz_eq.
    destruct get_json as [data | e].
    2: { eexists _, _. split; [reflexivity |]. intros rep H. inversion H. simpl. auto. }
    destruct (truthy data); cbn [negb].
    2: { eexists _, _. split; [reflexivity |]. intros rep H. inversion H. simpl. auto. }
    destruct data as [| b | n | f | s | l | d];
      try (eexists _, _; split; [reflexivity |]; intros rep H; inversion H; simpl; auto 6).
    destruct (negb _).
    { eexists _, _. split; [reflexivity |]. intros rep H. inversion H. simpl. auto. }
    destruct (ne_str _ _).
    { eexists _, _. split; [reflexivity |]. intros rep H. inversion H. simpl. auto. }
    destruct (solve_quiz_chain _ _ _ _ _ _ _ _) as [t' [[rs |] | e]];
      eexists _, _; (split; [reflexivity |]); intros rep H; inversion H; simpl; auto 6.
  - intros e ->. rewrite handle_quiz_eq. reflexivity.
  - intros data -> Ht Hnd. rewrite handle_quiz_eq, Ht. cbn [negb].
    destruct data; try reflexivity. exfalso. eapply Hnd. reflexivity.
Qed.
End FrontEnd.

Lemma handle_quiz_rejects_witness :
  handle_quiz lib chain_world "s3cret" "sk-test" Cases.error_text 3 (Return (JDict [])) []
  = ([], Return (Some (error_reply "Invalid JSON" 400)))
  /\ handle_quiz lib chain_world "s3cret" "sk-test" Cases.error_text 3
                 (Return (JDict [("secret", JStr "wrong-secret"); ("url", quiz "1")])) []
     = ([], Return (Some (error_reply "Missing required fields: email, secret, url" 400)))
  /\ handle_quiz lib chain_world "s3cret" "sk-test" Cases.error_text 3
                 (Return (Cases.request_body "wrong-secret")) []
     = ([], Return (Some (error_reply "Invalid secret" 403))).
Proof.
  split; [| split].
  - exact (proj1 (handle_quiz_rejects lib chain_world "s3cret" "sk-test" Cases.error_text 3
                                      (JDict []) []) eq_refl).
  - apply (proj1 (proj2 (handle_quiz_rejects lib chain_world "s3cret" "sk-test"
                           Cases.error_text 3
                           (JDict [("secret", JStr "wrong-secret"); ("url", quiz "1")]) []))
                 [("secret", JStr "wrong-secret"); ("url", quiz "1")] eq_refl);
      [discriminate | reflexivity].
  - apply (proj2 (proj2 (handle_quiz_rejects lib chain_world "s3cret" "sk-test"
                           Cases.error_text 3 (Cases.request_body "wrong-secret") []))
                 _ eq_refl); [reflexivity | discriminate].
Defined.

Lemma handle_quiz_always_succeeds_witness :
  snd (handle_quiz lib (world (quiz_text true) still "http://quiz/1" 200) "s3cret" "sk-test"
                   Cases.error_text 3 (Return (Cases.request_body "s3cret")) [])
  = Return (Some (success_reply (quiz "1")))
  /\ snd (solve_quiz_chain lib (world (quiz_text true) still "http://quiz/1" 200)
                           (QuizSolver_init "sk-test") 3 email (JStr "s3cret") (quiz "1") [])
     = Return (Some []).
Proof.
  split; [| reflexivity].
  unfold Cases.request_body.
  erewrite (handle_quiz_always_succeeds lib (world (quiz_text true) still "http://quiz/1" 200)
              "s3cret" "sk-test" Cases.error_text 3
              [("email", email); ("secret", JStr "s3cret"); ("url", quiz "1")] []);
    [reflexivity | reflexivity | reflexivity | lazy; reflexivity].
Defined.

(** ** The first token of a text *)

Lemma digits_span (s : string) :
  exists ds rest,
    s = (ds ++ rest)%string
    /\ string_forallb is_digit ds = true
    /\ starts_with is_digit rest = false.
Proof.
  induction s as [| c s IH].
  - exists ""%string, ""%string. repeat split.
  - destruct (is_digit c) eqn:Hc.
    + destruct IH as [ds [rest [-> [Hds Hrest]]]].
      exists (String c ds), rest. cbn [string_forallb]. rewrite Hc, Hds.
      repeat split. exact Hrest.
    + exists ""%string, (String c s). repeat split. exact Hc.
Qed.

(** A text that starts with a digit starts with an unsigned token. *)
Lemma unsigned_token_at (s : string) :
  starts_with is_digit s = true ->
  exists ds point fs post,
    s = (ds ++ fraction_text point fs ++ post)%string
    /\ ds <> ""%string
    /\ string_forallb is_digit ds = true
    /\ string_forallb is_digit fs = true
    /\ (point = false -> fs = ""%string /\ starts_with (is_char ".") post = false)
    /\ starts_with is_digit post = false.
Proof.
  intros Hs. destruct (digits_span s) as [ds [rest [-> [Hds Hrest]]]].
  assert (Hne : ds <> ""%string).
  { intros ->. cbn [append] in Hs. congruence. }
  destruct (starts_with (is_char ".") rest) eqn:Hdot.
  - destruct rest as [| c rest]; [discriminate Hdot |].
    cbn [starts_with] in Hdot. unfold is_char in Hdot. apply Ascii.eqb_eq in Hdot. subst c.
    destruct (digits_span rest) as [fs [post [-> [Hfs Hpost]]]].
    exists ds, true, fs, post. repeat split; auto; discriminate.
  - exists ds, false, ""%string, rest. repeat split; auto.
Qed.

Lemma first_token_exists (s : string) :
  string_forallb not_digit s = false ->
  exists pre neg ds point fs post,
    s = (pre ++ (sign_text neg ++ ds ++ fraction_text point fs) ++ post)%string
    /\ string_forallb not_digit pre = true
    /\ (neg = false -> ends_with (is_char "-") pre = false)
    /\ ds <> ""%string
    /\ string_forallb is_digit ds = true
    /\ string_forallb is_digit fs = true
    /\ (point = false -> fs = ""%string /\ starts_with (is_char ".") post = false)
    /\ starts_with is_digit post = false.
Proof.
  induction s as [| c s IH]; [discriminate |].
  intros Hs.
  destruct (is_digit c) eqn:Hc.
  { destruct (unsigned_token_at (String c s)) as [ds [point [fs [post [E H]]]]];
      [exact Hc |].
    exists ""%string, false, ds, point, fs, post.
    split; [cbn [append sign_text]; rewrite append_assoc; exact E |].
    split; [reflexivity |]. split; [reflexivity |]. exact H. }
  destruct (is_char "-" c && starts_with is_digit s) eqn:Hminus.
  { apply andb_prop in Hminus. destruct Hminus as [Hm Hd].
    unfold is_char in Hm. apply Ascii.eqb_eq in Hm. subst c.
    destruct (unsigned_token_at s Hd) as [ds [point [fs [post [E H]]]]].
    exists ""%string, true, ds, point, fs, post.
    split; [cbn [append sign_text]; rewrite append_assoc; f_equal; exact E |].
    split; [reflexivity |]. split; [intros H0; discriminate H0 |]. exact H. }
  cbn [string_forallb] in Hs. unfold not_digit at 1 in Hs. rewrite Hc in Hs.
  cbn [negb andb] in Hs.
  destruct (IH Hs) as [pre [neg [ds [point [fs [post [E [Hpre [Hend H]]]]]]]]].
  exists (String c pre), neg, ds, point, fs, post.
  split; [cbn [append]; f_equal; exact E |].
  split; [cbn [string_forallb]; unfold not_digit at 1; rewrite Hc; exact Hpre |].
  split; [| exact H].
  intros Hneg. specialize (Hend Hneg). destruct pre as [| c' pre]; [| exact Hend].
  cbn [ends_with]. destruct (is_char "-" c) eqn:Hm; [| reflexivity].
  cbn [andb] in Hminus. subst neg. rewrite E in Hminus.
  destruct H as [Hne [Hds _]]. destruct ds as [| d ds]; [congruence |].
  cbn [string_forallb] in Hds. apply andb_prop in Hds. destruct Hds as [Hd _].
  cbn [append sign_text starts_with] in Hminus. congruence.
Qed.

Section NumberTotal.
Variable lib : PyLib.

(** X25.  With a format that contains "number" or "int", a text with a
    digit in it always has a first token, an optional minus sign, digits
    and an optional fraction, and the answer is that token through
    [int(float(...))]: the float never fails to parse, and the text comes
    back only when the float is an infinity. *)
Theorem number_format_uses_first_token (answer_text fmt : string) :
  str_in "number" (lower fmt) || str_in "int" (lower fmt) = true ->
  string_forallb not_digit answer_text = false ->
  exists pre neg ds point fs post,
    answer_text = (pre ++ (sign_text neg ++ ds ++ fraction_text point fs) ++ post)%string
    /\ string_forallb not_digit pre = true
    /\ ds <> ""%string
    /\ string_forallb is_digit ds = true
    /\ string_forallb is_digit fs = true
    /\ re_findall number_pattern answer_text
       = (sign_text neg ++ ds ++ fraction_text point fs)%string
           :: tl (re_findall number_pattern answer_text)
    /\ py_float (sign_text neg ++ ds ++ fraction_text point fs)
       = Return (float_of_decimal neg (digits_value (ds ++ fs))
                                  (Z.of_nat (String.length fs)))
    /\ format_answer lib answer_text (JStr fmt)
       = match py_int (float_of_decimal neg (digits_value (ds ++ fs))
                                        (Z.of_nat (String.length fs))) with
         | Return n => Return (JInt n)
         | Raise _ => Return (JStr answer_text)
         end.
Proof.
  intros Hfmt Hdigit.
  destruct (first_token_exists answer_text Hdigit)
    as [pre [neg [ds [point [fs [post [E [Hpre [Hend [Hne [Hds [Hfs [Hpoint Hpost]]]]]]]]]]]]].
  exists pre, neg, ds, point, fs, post.
  assert (Hmatch := token_matches neg point ds fs post Hne Hds Hfs Hpoint Hpost).
  destruct (findall_first_token pre (sign_text neg ++ ds ++ fraction_text point fs) post neg
                                Hpre Hend) as [more Hfind].
  { destruct neg; [discriminate |]. destruct ds; [congruence | discriminate]. }
  { intros ->. reflexivity. }
  { rewrite !append_assoc. exact Hmatch. }
  rewrite <- E in Hfind.
  pose proof (py_float_token neg point ds fs Hne Hds Hfs (fun H => proj1 (Hpoint H)))
    as Hfloat.
  repeat split; auto.
  - rewrite Hfind. reflexivity.
  - assert (Htruthy : truthy (JStr fmt) = true).
    { destruct fmt; [discriminate Hfmt | reflexivity]. }
    unfold format_answer. rewrite Htruthy. cbn [negb].
    unfold format_attempt. rewrite Hfmt, Hfind, Hfloat. cbn [obind].
    destruct (py_int _); reflexivity.
Qed.
End NumberTotal.

Lemma number_format_uses_first_token_witness :
  exists pre neg ds point fs post,
    "Total: -12.50 units" = (pre ++ (sign_text neg ++ ds ++ fraction_text point fs) ++ post)%string
    /\ string_forallb not_digit pre = true
    /\ ds <> ""%string
    /\ string_forallb is_digit ds = true
    /\ string_forallb is_digit fs = true
    /\ re_findall number_pattern "Total: -12.50 units"
       = (sign_text neg ++ ds ++ fraction_text point fs)%string
           :: tl (re_findall number_pattern "Total: -12.50 units")
    /\ py_float (sign_text neg ++ ds ++ fraction_text point fs)
       = Return (float_of_decimal neg (digits_value (ds ++ fs))
                                  (Z.of_nat (String.length fs)))
    /\ format_answer lib "Total: -12.50 units" (JStr "integer")
       = match py_int (float_of_decimal neg (digits_value (ds ++ fs))
                                        (Z.of_nat (String.length fs))) with
         | Return n => Return (JInt n)
         | Raise _ => Return (JStr "Total: -12.50 units")
         end.
Proof.
  exact (number_format_uses_first_token lib "Total: -12.50 units" "integer" eq_refl eq_refl).
Defined.

(** ** Integers that a float holds exactly *)

Local Open Scope Z_scope.

Lemma digits2_pos_log2 (p : positive) : Zpos (digits2_pos p) = Z.log2 (Zpos p) + 1.
Proof.
  assert (H : forall q, digits2_pos q = Pos.size q).
  { induction q as [q IH | q IH |]; simpl; [rewrite IH | rewrite IH |]; reflexivity. }
  rewrite H. destruct p as [p | p |]; simpl; try reflexivity; rewrite Pos2Z.inj_succ; lia.
Qed.

(** The float of a positive integer below 2^53: the integer itself,
    held in 53 bits. *)
Lemma float_of_small_integer (neg : bool) (p : positive) :
  Zpos p < 2 ^ 53 ->
  exists m e,
    Prim2SF (float_of_decimal neg (Zpos p) 0) = S754_finite neg m e
    /\ Z.shiftl (Zpos m) e = Zpos p.
Proof.
  intros Hp.
  set (d := Z.log2 (Zpos p) + 1).
  assert (Hd1 : 1 <= d) by (unfold d; pose proof (Z.log2_nonneg (Zpos p)); lia).
  assert (Hd53 : d <= 53).
  { unfold d. assert (Z.log2 (Zpos p) < 53); [| lia].
    apply Z.log2_lt_pow2; lia. }
  assert (Hdig : forall k, 0 <= k -> Zdigits2 (Zpos p * 2 ^ k) = d + k).
  { intros k Hk. assert (Hpos : 0 < Zpos p * 2 ^ k) by (apply Z.mul_pos_pos; lia).
    destruct (Zpos p * 2 ^ k) as [| q | q] eqn:E; try lia.
    unfold Zdigits2. rewrite digits2_pos_log2, <- E, Z.log2_mul_pow2 by lia.
    unfold d. lia. }
  set (m := Z.to_pos (Zpos p * 2 ^ (53 - d))).
  assert (Hm : Zpos m = Zpos p * 2 ^ (53 - d)).
  { unfold m. rewrite Z2Pos.id; [reflexivity |]. apply Z.mul_pos_pos; lia. }
  exists m, (d - 53).
  assert (Hcore : SFdiv_core_binary prec emax (Zpos p) 0 1 0
                  = (Zpos (xO m), d - 54, loc_Exact)).
  { unfold SFdiv_core_binary.
    replace (Zdigits2 (Zpos p)) with d
      by (unfold Zdigits2; rewrite digits2_pos_log2; reflexivity).
    change (Zdigits2 1) with 1.
    replace (fexp prec emax (d + 0 - (1 + 0))) with (d - 54)
      by (unfold fexp, SpecFloat.emin, prec, emax; lia).
    replace (Z.min (d - 54) (0 - 0)) with (d - 54) by lia.
    replace (0 - 0 - (d - 54)) with (54 - d) by lia.
    assert (Hshift : Z.shiftl (Zpos p) (54 - d) = Zpos (xO m)).
    { rewrite Z.shiftl_mul_pow2 by lia.
      change (Zpos (xO m)) with (2 * Zpos m). rewrite Hm.
      replace (54 - d) with (1 + (53 - d)) by lia.
      rewrite Z.pow_add_r by lia. change (2 ^ 1) with 2. ring. }
    destruct (54 - d) as [| s | s] eqn:Es; try lia.
    rewrite Hshift.
    assert (Hdiv : Z.div_eucl (Zpos (xO m)) 1 = (Zpos (xO m), 0)).
    { pose proof (Z.div_1_r (Zpos (xO m))) as Hq. pose proof (Z.mod_1_r (Zpos (xO m))) as Hr.
      unfold Z.div, Z.modulo in Hq, Hr.
      destruct (Z.div_eucl (Zpos (xO m)) 1) as [q r]. subst. reflexivity. }
    rewrite Hdiv. reflexivity. }
  assert (Hd54 : Zdigits2 (Zpos (xO m)) = 54).
  { change (Zpos (xO m)) with (2 * Zpos m). rewrite Hm.
    replace (2 * (Zpos p * 2 ^ (53 - d))) with (Zpos p * 2 ^ (54 - d)).
    - rewrite Hdig by lia. lia.
    - replace (54 - d) with (1 + (53 - d)) by lia.
      rewrite Z.pow_add_r by lia. change (2 ^ 1) with 2. ring. }
  assert (Hd53' : Zdigits2 (Zpos m) = 53).
  { rewrite Hm, Hdig by lia. lia. }
  assert (Hround : binary_round_aux prec emax neg (Zpos (xO m)) (d - 54) loc_Exact
                   = S754_finite neg m (d - 53)).
  { unfold binary_round_aux, shr_fexp.
    rewrite Hd54.
    replace (fexp prec emax (54 + (d - 54)) - (d - 54)) with 1
      by (unfold fexp, SpecFloat.emin, prec, emax; lia).
    cbn [shr iter_pos shr_record_of_loc shr_1 orb loc_of_shr_record shr_m
         round_nearest_even].
    rewrite Hd53'.
    replace (fexp prec emax (53 + (d - 54 + 1)) - (d - 54 + 1)) with 0
      by (unfold fexp, SpecFloat.emin, prec, emax; lia).
    cbn [shr shr_record_of_loc shr_m].
    replace (d - 54 + 1) with (d - 53) by lia.
    replace (d - 53 <=? emax - prec) with true
      by (symmetry; apply Z.leb_le; unfold prec, emax; lia).
    reflexivity. }
  assert (Hvalid : SpecFloat.valid_binary prec emax (S754_finite neg m (d - 53)) = true).
  { unfold SpecFloat.valid_binary, bounded, canonical_mantissa.
    change (Zpos (digits2_pos m)) with (Zdigits2 (Zpos m)). rewrite Hd53'.
    apply andb_true_intro. split.
    + apply Z.eqb_eq. unfold fexp, SpecFloat.emin, prec, emax; lia.
    + apply Z.leb_le. unfold prec, emax; lia. }
  split.
  - unfold float_of_decimal. change (10 ^ 0) with 1. rewrite Hcore, Hround.
    apply Prim2SF_SF2Prim. exact Hvalid.
  - rewrite Hm.
    rewrite <- Z.shiftr_opp_r, Z.shiftr_div_pow2 by lia.
    replace (- (d - 53)) with (53 - d) by lia.
    apply Z.div_mul. apply Z.pow_nonzero; lia.
Qed.

Lemma digits_value_from_nonneg (s : string) (acc : Z) :
  0 <= acc -> 0 <= digits_value_from acc s.
Proof.
  revert acc. induction s as [| c s IH]; intros acc H; [exact H |].
  cbn [digits_value_from]. apply IH. unfold digit_val. lia.
Qed.

Lemma py_int_of_small_integer (neg : bool) (n : Z) :
  0 <= n < 2 ^ 53 ->
  py_int (float_of_decimal neg n 0) = Return (cond_Zopp neg n).
Proof.
  intros [H0 H53]. destruct n as [| p | p]; [| | lia].
  - destruct neg; vm_compute; reflexivity.
  - destruct (float_of_small_integer neg p H53) as [m [e [Hsf Hval]]].
    unfold py_int. rewrite Hsf, Hval. reflexivity.
Qed.

Local Close Scope Z_scope.

Section Exact.
Variable lib : PyLib.

(** X26.  With a format that contains "number" or "int", when the first
    token of the text is an integer (digits with no fractional digit, a
    trailing point allowed) of magnitude below 2^53, the answer is exactly
    that integer with its sign. *)
Theorem small_integer_token_is_exact (answer_text fmt pre : string) (neg : bool)
        (ds : string) (point : bool) (post : string) :
  str_in "number" (lower fmt) || str_in "int" (lower fmt) = true ->
  answer_text = (pre ++ (sign_text neg ++ ds ++ fraction_text point "") ++ post)%string ->
  string_forallb not_digit pre = true ->
  (neg = false -> ends_with (is_char "-") pre = false) ->
  ds <> ""%string ->
  string_forallb is_digit ds = true ->
  (point = false -> starts_with (is_char ".") post = false) ->
  starts_with is_digit post = false ->
  (digits_value ds < 2 ^ 53)%Z ->
  format_answer lib answer_text (JStr fmt) = Return (JInt (truncated_value neg ds)).
Proof.
  intros Hfmt Htext Hpre Hend Hne Hds Hpoint Hpost Hsmall.
  assert (Hpoint' : point = false ->
                    ""%string = ""%string /\ starts_with (is_char ".") post = false).
  { intros H. split; [reflexivity | exact (Hpoint H)]. }
  assert (Hmatch := token_matches neg point ds "" post Hne Hds eq_refl Hpoint' Hpost).
  destruct (findall_first_token pre (sign_text neg ++ ds ++ fraction_text point "") post neg
                                Hpre Hend) as [more Hfind].
  { destruct neg; [discriminate |]. destruct ds; [congruence | discriminate]. }
  { intros ->. reflexivity. }
  { rewrite !append_assoc. exact Hmatch. }
  assert (Htruthy : truthy (JStr fmt) = true).
  { destruct fmt; [discriminate Hfmt | reflexivity]. }
  unfold format_answer. rewrite Htruthy. cbn [negb].
  unfold format_attempt. rewrite Hfmt, Htext, Hfind.
  rewrite (py_float_token neg point ds "" Hne Hds eq_refl (fun _ => eq_refl)).
  cbn [obind String.length Z.of_nat]. rewrite append_empty_r.
  rewrite py_int_of_small_integer.
  - reflexivity.
  - split; [apply digits_value_from_nonneg; lia | exact Hsmall].
Qed.
End Exact.

Lemma small_integer_token_is_exact_witness :
  format_answer lib "It is -17 degrees." (JStr "Integer") = Return (JInt (-17)).
Proof.
  apply (small_integer_token_is_exact lib "It is -17 degrees." "Integer" "It is " true "17"
                                      false " degrees.");
    try reflexivity; discriminate.
Defined.
